(** * Microsoft Update Connectivity Checker: a model of
      [Microsoft-Connectivity-Checker.py] and its exit-code, counter,
      probing and output properties.

    The script resolves each domain, probes every resolved address on ports
    80 and 443, keeps three counters on a [ConnectivityChecker] object and
    turns them into the process exit code.  The network is outside the
    program, and so is the stream behind standard output: both are
    interfaces ([Socket], [Console]) over an arbitrary world, and the checker
    is a state-and-exception computation over that world. *)

From Stdlib Require Import ZArith List String Ascii Bool Lia DecimalString.
Import ListNotations.
Open Scope string_scope.
Open Scope Z_scope.

Set Implicit Arguments.

(** ** Python values the script uses *)

(** The exceptions the script distinguishes: [except socket.gaierror]
    (line 52), [except Exception] (lines 72 and 186) and
    [except KeyboardInterrupt] (line 183).  [OtherException] stands for any
    subclass of [Exception] other than [socket.gaierror] ([socket.herror],
    [UnicodeError], [TimeoutError], [ConnectionRefusedError], ...);
    [KeyboardInterrupt] derives from [BaseException] only.  The string is
    what [str(e)] gives. *)
Inductive exn : Type :=
| gaierror (msg : string)
| OtherException (msg : string)
| KeyboardInterrupt.

Definition is_gaierror (e : exn) : bool :=
  match e with gaierror _ => true | _ => false end.

Definition is_Exception (e : exn) : bool :=
  match e with KeyboardInterrupt => false | _ => true end.


Definition str_exn (e : exn) : string :=
  match e with
  | gaierror m => m
  | OtherException m => m
  | KeyboardInterrupt => ""
  end.

(** [str(n)] for an [int]. *)
Definition str_int (n : Z) : string := NilZero.string_of_int (Z.to_int n).

Definition nl : string := String "010"%char EmptyString.

(** [sep.join(l)]. *)
Fixpoint join (sep : string) (l : list string) : string :=
  match l with
  | [] => ""
  | [x] => x
  | x :: xs => x ++ sep ++ join sep xs
  end.

(** [c * n] for a one-character string. *)
Fixpoint str_mul (c : string) (n : nat) : string :=
  match n with
  | O => ""
  | S n' => c ++ str_mul c n'
  end.

(** Strings are UTF-8 byte strings; [len(s)] counts code points, that is
    the bytes that are not continuation bytes [10xxxxxx]. *)
Fixpoint len (s : string) : nat :=
  match s with
  | EmptyString => O
  | String c s' =>
      let n := nat_of_ascii c in
      if (Nat.leb 128 n && Nat.ltb n 192)%bool then len s' else S (len s')
  end.

(** The format spec [{s:<35}]: left-justify in a field of the given width. *)
Definition ljust (s : string) (width : nat) : string :=
  s ++ str_mul " " (width - len s).

(** ** The network *)

(** What [socket.gethostbyname_ex(domain)] gives back: the address list
    (third component of the triple), or the exception it raises. *)
Definition dns_outcome : Type := (exn + list string)%type.

(** What the body [sock = socket.create_connection(...); sock.close()]
    gives back: [None] when the connection was made and closed, or the
    exception raised. *)
Definition connect_outcome : Type := option exn.

(** One network call of the run together with its outcome. *)
Inductive NetEvent : Type :=
| EvResolve (domain : string) (r : dns_outcome)
| EvConnect (ip : string) (port timeout : Z) (r : connect_outcome).

(** The [socket] module, over a world that may change with every call. *)
Class Socket (World : Type) : Type := {
  gethostbyname_ex : string -> World -> dns_outcome * World;
  create_connection : string -> Z -> Z -> World -> connect_outcome * World
}.

(** Standard output: writing a line succeeds ([None]) or raises, for
    instance [UnicodeEncodeError] when the encoding of the stream lacks a
    character of the line, an [OSError] when the stream is broken or would
    block, [KeyboardInterrupt]. *)
Class Console (World : Type) : Type := {
  write : string -> World -> option exn * World
}.

(** ** The checker object and the process around it *)

(** The attributes of a [ConnectivityChecker] (lines 38-44). *)
Record ConnectivityChecker : Type := mkChecker {
  timeout : Z;
  verbose : bool;
  quiet : bool;
  total_domains : Z;
  failed_domains : Z;
  dns_failures : Z
}.

Definition __init__ (timeout : Z) (verbose quiet : bool) : ConnectivityChecker :=
  {| timeout := timeout; verbose := verbose; quiet := quiet;
     total_domains := 0; failed_domains := 0; dns_failures := 0 |}.

Definition incr_total (c : ConnectivityChecker) : ConnectivityChecker :=
  {| timeout := timeout c; verbose := verbose c; quiet := quiet c;
     total_domains := total_domains c + 1;
     failed_domains := failed_domains c;
     dns_failures := dns_failures c |}.

Definition incr_failed (c : ConnectivityChecker) : ConnectivityChecker :=
  {| timeout := timeout c; verbose := verbose c; quiet := quiet c;
     total_domains := total_domains c;
     failed_domains := failed_domains c + 1;
     dns_failures := dns_failures c |}.

Definition incr_dns (c : ConnectivityChecker) : ConnectivityChecker :=
  {| timeout := timeout c; verbose := verbose c; quiet := quiet c;
     total_domains := total_domains c;
     failed_domains := failed_domains c;
     dns_failures := dns_failures c + 1 |}.

(** What a statement or a call ends with: a value, or a raised exception. *)
Inductive Result (A : Type) : Type :=
| Ok (a : A)
| Raise (e : exn).

Arguments Raise {A} e.

Section Checker.

Context {World : Type} {socket : Socket World} {console : Console World}.

(** The process: the world behind the sockets and the streams, what was
    printed to each stream (one entry per [print] call that succeeded,
    without the newline [print] adds), and the log of network calls made so
    far. *)
Record Proc : Type := mkProc {
  world : World;
  stdout : list string;
  stderr : list string;
  net_log : list NetEvent
}.

(** The state of a run: the checker object ([self]) and the process. *)
Record State : Type := mkState {
  self : ConnectivityChecker;
  proc : Proc
}.

(** ** A state monad with exceptions

    An exception leaves the state as it was when it was raised: the
    attributes already assigned and the lines already printed stay. *)
Definition M (A : Type) : Type := State -> Result A * State.

Definition ret {A} (a : A) : M A := fun s => (Ok a, s).

Definition bind {A B} (m : M A) (f : A -> M B) : M B :=
  fun s =>
    match m s with
    | (Ok a, s') => f a s'
    | (Raise e, s') => (Raise e, s')
    end.

(** [try: body except <class> as e: handler e]. *)
Definition try_except {A} (body : M A) (catches : exn -> bool)
    (handler : exn -> M A) : M A :=
  fun s =>
    match body s with
    | (Ok a, s') => (Ok a, s')
    | (Raise e, s') => if catches e then handler e s' else (Raise e, s')
    end.

Definition get_self : M ConnectivityChecker := fun s => (Ok (self s), s).

Definition update_self (f : ConnectivityChecker -> ConnectivityChecker) : M unit :=
  fun s => (Ok tt, {| self := f (self s); proc := proc s |}).

(** [print(line)]: a line more on standard output, or the exception the
    stream raises, with nothing written. *)
Definition print (line : string) : M unit :=
  fun s =>
    let p := proc s in
    let (r, w') := write line (world p) in
    match r with
    | None =>
        (Ok tt, {| self := self s;
                   proc := {| world := w'; stdout := stdout p ++ [line];
                              stderr := stderr p; net_log := net_log p |} |})
    | Some e =>
        (Raise e, {| self := self s;
                     proc := {| world := w'; stdout := stdout p;
                                stderr := stderr p; net_log := net_log p |} |})
    end.

(** The part of a [try] body up to a point: [None] when it completed, the
    exception when it raised one that [except Exception] catches; anything
    else goes through. *)
Definition attempt (body : M unit) : M (option exn) :=
  try_except (bind body (fun _ => ret None)) is_Exception (fun e => ret (Some e)).

Definition when (b : bool) (m : M unit) : M unit := if b then m else ret tt.

Definition socket_gethostbyname_ex (domain : string) : M (list string) :=
  fun s =>
    let p := proc s in
    let (r, w') := gethostbyname_ex domain (world p) in
    let s' := {| self := self s;
                 proc := {| world := w'; stdout := stdout p; stderr := stderr p;
                            net_log := net_log p ++ [EvResolve domain r] |} |} in
    match r with
    | inl e => (Raise e, s')
    | inr ip_list => (Ok ip_list, s')
    end.

Definition socket_create_connection (ip : string) (port tmo : Z) : M unit :=
  fun s =>
    let p := proc s in
    let (r, w') := create_connection ip port tmo (world p) in
    let s' := {| self := self s;
                 proc := {| world := w'; stdout := stdout p; stderr := stderr p;
                            net_log := net_log p ++ [EvConnect ip port tmo r] |} |} in
    match r with
    | Some e => (Raise e, s')
    | None => (Ok tt, s')
    end.

(** [for x in l: acc = body acc x], the loop variables threaded through. *)
Fixpoint for_each {A B} (l : list A) (body : B -> A -> M B) (acc : B) : M B :=
  match l with
  | [] => ret acc
  | x :: xs => bind (body acc x) (fun acc' => for_each xs body acc')
  end.

End Checker.

Arguments Proc World : clear implicits.
Arguments State World : clear implicits.
Arguments M World A : clear implicits.

Declare Scope py_scope.
Delimit Scope py_scope with py.
Notation "x <- m ;; k" := (bind m (fun x => k))
  (at level 61, m at next level, right associativity) : py_scope.
Notation "m ;; k" := (bind m (fun _ => k))
  (at level 61, right associativity) : py_scope.

Section Program.

Context {World : Type} {socket : Socket World} {console : Console World}.

Local Open Scope py_scope.

(** ** [ConnectivityChecker.check_domain] (lines 46-94) *)

(** Lines 69, 73 and 78: the marks collected per port and per address. *)
Definition port_ok (port : Z) : string := "✓" ++ str_int port.

Definition port_failed (port : Z) : string := "✗" ++ str_int port.

Definition ip_result (ip : string) (ip_ports : list string) : string :=
  ip ++ ":[" ++ join "," ip_ports ++ "]".

(** Lines 71 and 76: the lines of verbose mode. *)
Definition connected_line (ip : string) (port : Z) : string :=
  "    Connected to " ++ ip ++ ":" ++ str_int port.

Definition failed_line (ip : string) (port : Z) (e : exn) : string :=
  "    Failed to connect to " ++ ip ++ ":" ++ str_int port ++ " - " ++ str_exn e.

(** Lines 72-76: the handler of [except Exception as e], on the list
    [ip_ports] as the exception left it. *)
Definition except_Exception (ip : string) (port : Z) (ip_ports : list string)
    (e : exn) : M World (list string * bool) :=
  let ip_ports := (ip_ports ++ [port_failed port])%list in
  let has_failed_port := true in
  c <- get_self ;;
  when (verbose c) (print (failed_line ip port e)) ;;
  ret (ip_ports, has_failed_port).

(** Lines 65-76, one turn of [for port in (80, 443)]: the locals [ip_ports]
    and [has_failed_port] go in and come out.  The [try] body is cut at the
    [append] of line 69, a mutation the handler sees when the [print] of
    line 71 is what raised. *)
Definition probe_port (ip : string) (acc : list string * bool) (port : Z)
    : M World (list string * bool) :=
  let '(ip_ports, has_failed_port) := acc in
  c <- get_self ;;
  r <- attempt (socket_create_connection ip port (timeout c)) ;;
  match r with
  | Some e => except_Exception ip port ip_ports e
  | None =>
      let ip_ports := (ip_ports ++ [port_ok port])%list in
      c <- get_self ;;
      r <- attempt (when (verbose c) (print (connected_line ip port))) ;;
      match r with
      | Some e => except_Exception ip port ip_ports e
      | None => ret (ip_ports, has_failed_port)
      end
  end.

(** Lines 63-78, one turn of [for ip in ip_list]: the locals [port_results]
    and [has_failed_port] go in and come out. *)
Definition probe_ip (acc : list string * bool) (ip : string)
    : M World (list string * bool) :=
  let '(port_results, has_failed_port) := acc in
  r <- for_each [80; 443] (probe_port ip) ([], has_failed_port) ;;
  let '(ip_ports, has_failed_port) := r in
  ret ((port_results ++ [ip_result ip ip_ports])%list, has_failed_port).

(** Line 85. *)
Definition result_line (has_failed_port : bool) (domain : string)
    (port_results : list string) : string :=
  let status := if has_failed_port then "!" else "✓" in
  "[" ++ status ++ "] " ++ ljust domain 35 ++ " " ++ join " | " port_results.

(** Line 56. *)
Definition dns_fail_line (domain : string) (e : exn) : string :=
  "[✗] " ++ ljust domain 35 ++ " DNS FAIL: " ++ str_exn e.

(** Lines 50-57: the [try] either leaves [ip_list] bound ([inr]) or its
    handler executes [return False] ([inl]). *)
Definition resolve_domain (domain : string) : M World (bool + list string) :=
  try_except
    (ip_list <- socket_gethostbyname_ex domain ;;
     ret (inr ip_list))
    is_gaierror
    (fun e =>
       update_self incr_dns ;;
       update_self incr_failed ;;
       c <- get_self ;;
       when (negb (quiet c)) (print (dns_fail_line domain e)) ;;
       ret (inl false)).

Definition check_domain (domain : string) : M World bool :=
  update_self incr_total ;;
  r <- resolve_domain domain ;;
  match r with
  | inl b => ret b
  | inr ip_list =>
      r <- for_each ip_list probe_ip ([], false) ;;
      let '(port_results, has_failed_port) := r in
      when has_failed_port (update_self incr_failed) ;;
      c <- get_self ;;
      (if quiet c
       then when has_failed_port
                 (print (result_line has_failed_port domain port_results))
       else print (result_line has_failed_port domain port_results)) ;;
      ret (negb has_failed_port)
  end.

(** ** [ConnectivityChecker.run_checks] (lines 96-120) *)

(** Lines 102-105: the loop over the domains, giving [success_count]. *)
Definition count_successes (success_count : Z) (domain : string) : M World Z :=
  b <- check_domain domain ;;
  ret (if b then success_count + 1 else success_count).

Definition check_all (domains : list string) : M World Z :=
  for_each domains count_successes 0.

(** Lines 114-120, on the counters of [self]. *)
Definition exit_code (c : ConnectivityChecker) : Z :=
  if dns_failures c =? total_domains c then 2
  else if failed_domains c >? 0 then 1
  else 0.

(** Lines 99-100 and 108-112: the lines around the loop. *)
Definition header_line : string := nl ++ "Microsoft Update Connectivity Check".

Definition rule_line : string := str_mul "-" 50.

Definition summary_line (success_count : Z) (c : ConnectivityChecker) : string :=
  nl ++ "Summary: " ++ str_int success_count ++ "/"
     ++ str_int (total_domains c) ++ " domains fully accessible".

Definition issues_line (c : ConnectivityChecker) : string :=
  "Issues found: " ++ str_int (failed_domains c)
    ++ " domains with connectivity problems".

Definition dns_failures_line (c : ConnectivityChecker) : string :=
  "DNS failures: " ++ str_int (dns_failures c) ++ " domains".

Definition run_checks (domains : list string) : M World Z :=
  c <- get_self ;;
  when (negb (quiet c))
       (print header_line ;;
        print rule_line) ;;
  success_count <- check_all domains ;;
  c <- get_self ;;
  when (negb (quiet c))
       (print (summary_line success_count c) ;;
        when (failed_domains c >? 0) (print (issues_line c)) ;;
        when (dns_failures c >? 0) (print (dns_failures_line c))) ;;
  c <- get_self ;;
  ret (exit_code c).

(** ** [main] (lines 122-188), after [parser.parse_args()] *)

Definition DEFAULT_DOMAINS : list string :=
  [ "windowsupdate.microsoft.com";
    "update.microsoft.com";
    "dl.delivery.mp.microsoft.com";
    "sls.update.microsoft.com";
    "fe2.update.microsoft.com";
    "download.windowsupdate.com" ].

(** The namespace [args]: [-d] has [action='append'], so [args.domains] is
    [None] or a list; [-t] has [type=int]. *)
Record Args : Type := mkArgs {
  args_domains : option (list string);
  args_timeout : Z;
  args_verbose : bool;
  args_quiet : bool
}.

(** Lines 160-162: the defaults, then what [-d] appended. *)
Definition domain_list (args : Args) : list string :=
  (DEFAULT_DOMAINS ++
   match args_domains args with
   | Some extra => extra
   | None => []
   end)%list.

Definition print_stderr (line : string) (p : Proc World) : Proc World :=
  {| world := world p; stdout := stdout p; stderr := stderr p ++ [line];
     net_log := net_log p |}.

Definition print_stdout (line : string) (p : Proc World) : Proc World :=
  {| world := world p; stdout := stdout p ++ [line]; stderr := stderr p;
     net_log := net_log p |}.

(** The value [main] returns, which [sys.exit] makes the exit status, and the
    process as [main] leaves it.  The four messages of [main] itself are
    taken as written. *)
Definition main (args : Args) (p : Proc World) : Z * Proc World :=
  let domains := domain_list args in
  if args_timeout args <=? 0 then
    (2, print_stderr "Error: Timeout must be positive" p)
  else if (args_verbose args && args_quiet args)%bool then
    (2, print_stderr "Error: Cannot use both --verbose and --quiet" p)
  else
    let checker :=
      __init__ (args_timeout args) (args_verbose args) (args_quiet args) in
    match run_checks domains {| self := checker; proc := p |} with
    | (Ok exit_code, s) => (exit_code, proc s)
    | (Raise KeyboardInterrupt, s) =>
        (1, print_stdout (nl ++ "Interrupted by user") (proc s))
    | (Raise e, s) =>
        (2, print_stderr ("Unexpected error: " ++ str_exn e) (proc s))
    end.

End Program.

(** ** Concrete networks, for running the model *)

(** A network whose answers depend on the host asked for and on how many
    calls were made before: the world is the call counter. *)
Definition clock_socket (dns : nat -> string -> dns_outcome)
    (tcp : nat -> string -> Z -> connect_outcome) : Socket nat :=
  {| gethostbyname_ex := fun domain n => (dns n domain, S n);
     create_connection := fun ip port _ n => (tcp n ip port, S n) |}.

Definition start {World : Type} (w : World) : Proc World :=
  {| world := w; stdout := []; stderr := []; net_log := [] |}.

(** The [UnicodeError] the resolver raises for a name with an empty label. *)
Definition idna_error : exn :=
  OtherException
    "encoding with 'idna' codec failed (UnicodeError: label empty or too long)".

Definition dns1 (_ : nat) (d : string) : dns_outcome :=
  if String.eqb d "good.example" then inr ["10.0.0.1"]
  else if String.eqb d "two.example" then inr ["10.0.0.1"; "10.0.0.2"]
  else if String.eqb d "empty.example" then inr []
  else if String.eqb d "bad..example" then inl idna_error
  else inl (gaierror "[Errno -2] Name or service not known").

Definition tcp1 (_ : nat) (ip : string) (port : Z) : connect_outcome :=
  if (String.eqb ip "10.0.0.2" && (port =? 443))%bool
  then Some (OtherException "timed out") else None.

Definition net1 : Socket nat := clock_socket dns1 tcp1.



(** A network where every failure is one the checker handles. *)
Definition dns_handled (_ : nat) (d : string) : dns_outcome :=
  if String.eqb d "good.example" then inr ["10.0.0.1"]
  else if String.eqb d "two.example" then inr ["10.0.0.1"; "10.0.0.2"]
  else inl (gaierror "[Errno -2] Name or service not known").

Definition net_handled : Socket nat := clock_socket dns_handled tcp1.

(** A fresh checker in a fresh process. *)
Definition fresh (tmo : Z) (v q : bool) : State nat :=
  {| self := __init__ tmo v q; proc := start 0%nat |}.


(** ** Concrete consoles *)

(** A stream that takes every line. *)
Definition utf8_console : Console nat :=
  {| write := fun _ n => (None, n) |}.

Fixpoint contains (sub s : string) : bool :=
  if String.prefix sub s then true
  else match s with
       | EmptyString => false
       | String _ s' => contains sub s'
       end.

Definition unicode_encode_error : exn :=
  OtherException "'charmap' codec can't encode character".

(** A stream whose encoding (cp1252) has neither U+2713 nor U+2717. *)
Definition cp1252_console : Console nat :=
  {| write := fun line n =>
       (if (contains "✓" line || contains "✗" line)%bool
        then Some unicode_encode_error else None, n) |}.


(** A stream that is gone: every write raises. *)
Definition broken_console : Console nat :=
  {| write := fun _ n => (Some (OtherException "[Errno 32] Broken pipe"), n) |}.

(** The network [net1] with port 80 refused everywhere. *)
Definition tcp_refused_80 (_ : nat) (ip : string) (port : Z) : connect_outcome :=
  if port =? 80 then Some (OtherException "[Errno 111] Connection refused")
  else None.

Definition net_refused_80 : Socket nat := clock_socket dns1 tcp_refused_80.


(** ** Probes as the checker sees them *)

(** How the [try] of lines 66-76 ended for one (address, port): the body
    completed; the connection raised an [Exception]; or the connection was
    made and the verbose [print] of line 71 raised an [Exception]. *)
Inductive Outcome : Type :=
| Connected
| ConnectFailed (e : exn)
| PrintFailed (e : exn).

Definition Probe : Type := (string * Z * Outcome)%type.

Definition probe_target (p : Probe) : string * Z := fst p.

(** What [create_connection] gave for this probe. *)
Definition connect_result (o : Outcome) : connect_outcome :=
  match o with
  | ConnectFailed e => Some e
  | Connected | PrintFailed _ => None
  end.

(** The handler ran: the probe sets [has_failed_port]. *)
Definition probe_failed (p : Probe) : bool :=
  match snd p with Connected => false | _ => true end.

Definition printed_connected (p : Probe) : bool :=
  match snd p with PrintFailed _ => false | _ => true end.


(** The marks a probe leaves in [ip_ports]. *)
Definition probe_marks (p : Probe) : list string :=
  let '(_, port, o) := p in
  match o with
  | Connected => [port_ok port]
  | ConnectFailed _ => [port_failed port]
  | PrintFailed _ => [port_ok port; port_failed port]
  end.

(** The line verbose mode prints for a probe. *)
Definition probe_line (p : Probe) : string :=
  let '(ip, port, o) := p in
  match o with
  | Connected => connected_line ip port
  | ConnectFailed e | PrintFailed e => failed_line ip port e
  end.

(** The entries of [port_results]: one per address, from its two probes. *)
Fixpoint port_results_of (probes : list Probe) : list string :=
  match probes with
  | p1 :: p2 :: rest =>
      ip_result (fst (fst p1)) (probe_marks p1 ++ probe_marks p2)
        :: port_results_of rest
  | _ => []
  end.

(** The (address, port) pairs of a domain, addresses in the order resolved
    and, for each, port 80 then port 443. *)
Definition targets (ip_list : list string) : list (string * Z) :=
  flat_map (fun ip => [(ip, 80); (ip, 443)]) ip_list.

(** A connection attempted, with what [create_connection] gave. *)
Definition Attempt : Type := (string * Z * connect_outcome)%type.

Definition attempt_event (tmo : Z) (a : Attempt) : NetEvent :=
  let '(ip, port, o) := a in EvConnect ip port tmo o.

Definition attempt_of (p : Probe) : Attempt :=
  let '(ip, port, o) := p in (ip, port, connect_result o).

Section Environment.

Context {World : Type} {socket : Socket World} {console : Console World}.

(** A world whose [create_connection] only ever raises [Exception]s. *)
Definition probes_never_interrupted : Prop :=
  forall ip port tmo (w : World) e,
    fst (create_connection ip port tmo w) = Some e -> is_Exception e = true.

(** A world whose standard output takes every line. *)
Definition console_never_raises : Prop :=
  forall line (w : World), fst (write line w) = None.

(** The exception was raised by a write to standard output. *)
Definition raised_by_print (e : exn) : Prop :=
  exists line (w : World), fst (write line w) = Some e.

(** The exception was raised by a connection and is not an [Exception]. *)
Definition raised_by_connect (tmo : Z) (e : exn) : Prop :=
  is_Exception e = false /\
  exists ip port (w : World), fst (create_connection ip port tmo w) = Some e.

(** The exception was raised by the resolver for one of the domains and is
    not a [socket.gaierror]. *)
Definition raised_by_resolver (domains : list string) (e : exn) : Prop :=
  is_gaierror e = false /\
  exists domain (w : World),
    In domain domains /\ fst (gethostbyname_ex domain w) = inl e.

(** What probing some targets in turn does (lines 63-78), from the locals
    [port_results] and [has_failed_port] and the state [s] to the result [r]
    and the state [s']: the connections attempted, the probes completed and
    the lines printed. *)
Definition probing_spec (tgts : list (string * Z)) (port_results : list string)
    (has_failed_port : bool) (s : State World)
    (r : Result (list string * bool)) (s' : State World) : Prop :=
  self s' = self s /\
  stderr (proc s') = stderr (proc s) /\
  exists (probes : list Probe) (attempts : list Attempt),
    net_log (proc s') =
      (net_log (proc s) ++ map (attempt_event (timeout (self s))) attempts)%list /\
    stdout (proc s') =
      (stdout (proc s) ++
       if verbose (self s) then map probe_line probes else [])%list /\
    (verbose (self s) = false -> forallb printed_connected probes = true) /\
    match r with
    | Ok (port_results', has_failed_port') =>
        attempts = map attempt_of probes /\
        map probe_target probes = tgts /\
        port_results' = (port_results ++ port_results_of probes)%list /\
        has_failed_port' =
          (has_failed_port || existsb probe_failed probes)%bool
    | Raise e =>
        (exists rest, tgts = (map fst attempts ++ rest)%list) /\
        (raised_by_connect (timeout (self s)) e \/
         verbose (self s) = true /\ raised_by_print e)
    end.

End Environment.
(** ** The exit-code policy as the specification words it

    Code 2 when [dnsFailures == totalDomains] and [totalDomains > 0];
    otherwise code 1 when [domainsWithFailures > 0]; otherwise code 0. *)
Definition spec_exit_code (totalDomains domainsWithFailures dnsFailures : Z) : Z :=
  if ((dnsFailures =? totalDomains) && (totalDomains >? 0))%bool then 2
  else if domainsWithFailures >? 0 then 1
  else 0.

(** What [run_checks] prints before and after the loop when not in quiet
    mode. *)
Definition header_lines : list string := [header_line; rule_line].

Definition summary_lines (success_count : Z) (c : ConnectivityChecker)
    : list string :=
  [summary_line success_count c]
  ++ (if failed_domains c >? 0 then [issues_line c] else [])
  ++ (if dns_failures c >? 0 then [dns_failures_line c] else []).

(** ** Reading a call log *)

(** The domains resolved, in the order of the calls. *)
Fixpoint resolved_domains (log : list NetEvent) : list string :=
  match log with
  | [] => []
  | EvResolve domain _ :: rest => domain :: resolved_domains rest
  | EvConnect _ _ _ _ :: rest => resolved_domains rest
  end.

(** Every connection of the log goes to an address of the latest answer of
    the resolver ([current] before the first resolution), on port 80 or 443,
    with the given timeout. *)
Fixpoint probes_follow (tmo : Z) (current : list string) (log : list NetEvent)
    : Prop :=
  match log with
  | [] => True
  | EvResolve _ (inr ip_list) :: rest => probes_follow tmo ip_list rest
  | EvResolve _ (inl _) :: rest => probes_follow tmo [] rest
  | EvConnect ip port t _ :: rest =>
      In ip current /\ (port = 80 \/ port = 443) /\ t = tmo /\
      probes_follow tmo current rest
  end.

(** A per-domain line of the report: the DNS failure line or a result line
    of that domain. *)
Definition domain_line (domain line : string) : Prop :=
  (exists e, line = dns_fail_line domain e) \/
  (exists has_failed_port port_results,
     line = result_line has_failed_port domain port_results).

(** * Properties *)

Section Properties.

Context {World : Type} {socket : Socket World} {console : Console World}.

Implicit Types (s : State World) (c : ConnectivityChecker).

Ltac unfold_monad :=
  unfold attempt, try_except, bind, ret, when, get_self, update_self, print,
    socket_create_connection, socket_gethostbyname_ex.

(** Case analysis on every call to the world the goal runs through. *)
Ltac crack :=
  repeat (simpl; unfold ret;
    match goal with
    | V : verbose ?c = _ |- context [verbose ?c] => rewrite V
    | Q : quiet ?c = _ |- context [quiet ?c] => rewrite Q
    | F : ?b = true |- context [if ?b then _ else _] => rewrite F
    | F : ?b = false |- context [if ?b then _ else _] => rewrite F
    | |- context [write ?l ?w] =>
        let e := fresh "e" in let w' := fresh "w" in let E := fresh "W" in
        destruct (write l w) as [[e|] w'] eqn:E
    | |- context [create_connection ?i ?p ?t ?w] =>
        let e := fresh "e" in let w' := fresh "w" in let E := fresh "C" in
        destruct (create_connection i p t w) as [[e|] w'] eqn:E
    | |- context [is_Exception ?e] =>
        let E := fresh "X" in destruct (is_Exception e) eqn:E
    end);
  simpl; unfold ret.

Lemma print_raised line (w w' : World) e :
  write line w = (Some e, w') -> raised_by_print e.
Proof. intros H. exists line, w. rewrite H. reflexivity. Qed.

Lemma connect_raised ip port tmo (w w' : World) e :
  create_connection ip port tmo w = (Some e, w') ->
  is_Exception e = false -> raised_by_connect tmo e.
Proof. intros H X. split; [exact X|]. exists ip, port, w. rewrite H. reflexivity. Qed.

(** Closing the goals a case analysis leaves: conjunctions, witnesses read
    off the hypotheses, list equations up to associativity. *)
Ltac finish :=
  repeat match goal with
  | |- _ /\ _ => split
  | |- exists _, _ => eexists
  | W : write ?l _ = (Some ?e, _) |- fst (write ?l _) = Some ?e =>
      exact (f_equal fst W)
  | |- raised_by_print _ => eapply print_raised; eassumption
  | |- raised_by_connect _ _ => eapply connect_raised; eassumption
  | |- _ = _ =>
      first [ reflexivity | eassumption
            | simpl; rewrite <- ?app_assoc; reflexivity
            | simpl; rewrite ?app_nil_r, <- ?app_assoc; reflexivity
            | simpl; lia ]
  | |- _ \/ _ => first [ left; solve [finish] | right; solve [finish] ]
  | |- _ -> _ => intro
  end.

Lemma map_fst_attempt_of (probes : list Probe) :
  map fst (map attempt_of probes) = map probe_target probes.
Proof.
  rewrite map_map. apply map_ext. intros [[ip port] o]. reflexivity.
Qed.

(** One probe (lines 65-76): what it logs, prints and leaves in the locals. *)
Lemma probe_port_spec ip ip_ports has_failed_port port s r s' :
  probe_port ip (ip_ports, has_failed_port) port s = (r, s') ->
  self s' = self s /\
  stderr (proc s') = stderr (proc s) /\
  exists o,
    net_log (proc s') =
      (net_log (proc s) ++ [EvConnect ip port (timeout (self s)) o])%list /\
    match r with
    | Ok (ip_ports', has_failed_port') =>
        exists out,
          connect_result out = o /\
          (verbose (self s) = false -> printed_connected (ip, port, out) = true) /\
          ip_ports' = (ip_ports ++ probe_marks (ip, port, out))%list /\
          has_failed_port' = (has_failed_port || probe_failed (ip, port, out))%bool /\
          stdout (proc s') =
            (stdout (proc s) ++
             if verbose (self s) then [probe_line (ip, port, out)] else [])%list
    | Raise e =>
        stdout (proc s') = stdout (proc s) /\
        (raised_by_connect (timeout (self s)) e \/
         verbose (self s) = true /\ raised_by_print e)
    end.
Proof.
  destruct s as [c [w out err lg]].
  unfold probe_port, except_Exception. unfold_monad. simpl.
  destruct (verbose c) eqn:V; crack; intros R; inversion R; subst; clear R;
    (split; [reflexivity|]); (split; [reflexivity|]);
    eexists; (split; [reflexivity|]).
  all: try solve
    [ split; [reflexivity|];
      first [ left; eapply connect_raised; eassumption
            | right; split; [reflexivity | eapply print_raised; eassumption] ] ].
  all: first
    [ exists Connected; simpl; rewrite ?app_nil_r, ?orb_false_r, ?orb_true_r;
      repeat split; reflexivity
    | eexists (ConnectFailed _); simpl;
      rewrite ?app_nil_r, <- ?app_assoc, ?orb_false_r, ?orb_true_r;
      repeat split; reflexivity
    | eexists (PrintFailed _); simpl;
      rewrite ?app_nil_r, <- ?app_assoc, ?orb_false_r, ?orb_true_r;
      repeat split; (reflexivity || discriminate) ].
Qed.

Lemma if_app_nil (A : Type) (b : bool) (l1 l2 : list A) :
  ((if b then l1 else []) ++ (if b then l2 else []))%list
  = if b then (l1 ++ l2)%list else [].
Proof. destruct b; reflexivity. Qed.

(** The two probes of one address (lines 64-78). *)
Lemma probe_ip_spec port_results has_failed_port ip s r s' :
  probe_ip (port_results, has_failed_port) ip s = (r, s') ->
  probing_spec [(ip, 80); (ip, 443)] port_results has_failed_port s r s'.
Proof.
  unfold probe_ip. cbn [for_each]. unfold bind at 1 2.
  destruct (probe_port ip ([], has_failed_port) 80 s)
    as [[[ipp1 hf1]|e1] s1] eqn:P1;
    apply probe_port_spec in P1;
    destruct P1 as (Hself1 & Herr1 & o1 & Hlog1 & H1).
  - destruct H1 as (out1 & Ho1 & Hp1 & -> & -> & Hout1).
    unfold bind at 1.
    destruct (probe_port ip _ 443 s1) as [[[ipp2 hf2]|e2] s2] eqn:P2;
      apply probe_port_spec in P2;
      destruct P2 as (Hself2 & Herr2 & o2 & Hlog2 & H2);
      rewrite Hself1 in *.
    + destruct H2 as (out2 & Ho2 & Hp2 & -> & -> & Hout2).
      unfold ret. intros R; inversion R; subst; clear R.
      split; [congruence|]. split; [congruence|].
      exists [(ip, 80, out1); (ip, 443, out2)],
             [(ip, 80, connect_result out1); (ip, 443, connect_result out2)].
      split; [rewrite Hlog2, Hlog1, <- app_assoc; reflexivity|].
      split; [rewrite Hout2, Hout1, <- app_assoc, if_app_nil; reflexivity|].
      split; [intros V; cbn [forallb]; rewrite (Hp1 V), (Hp2 V); reflexivity|].
      cbn [existsb port_results_of map fst app].
      rewrite orb_false_r, orb_assoc. repeat split.
    + destruct H2 as (Hout2 & Hc2).
      intros R; inversion R; subst; clear R.
      split; [congruence|]. split; [congruence|].
      exists [(ip, 80, out1)], [(ip, 80, connect_result out1); (ip, 443, o2)].
      split; [rewrite Hlog2, Hlog1, <- app_assoc; reflexivity|].
      split; [rewrite Hout2, Hout1; reflexivity|].
      split; [intros V; cbn [forallb]; rewrite (Hp1 V); reflexivity|].
      split; [exists []; reflexivity | exact Hc2].
  - destruct H1 as (Hout1 & Hc1).
    intros R; inversion R; subst; clear R.
    split; [congruence|]. split; [congruence|].
    exists [], [(ip, 80, o1)].
    split; [exact Hlog1|].
    split; [rewrite Hout1; destruct (verbose (self s)); rewrite app_nil_r; reflexivity|].
    split; [reflexivity|].
    split; [exists [(ip, 443)]; reflexivity | exact Hc1].
Qed.

(** The whole probing loop (lines 63-78). *)
Lemma probe_loop_spec ip_list : forall port_results has_failed_port s r s',
  for_each ip_list probe_ip (port_results, has_failed_port) s = (r, s') ->
  probing_spec (targets ip_list) port_results has_failed_port s r s'.
Proof.
  induction ip_list as [|ip ips IH]; intros pr hf s r s'.
  - simpl. unfold ret. intros R; inversion R; subst; clear R.
    split; [reflexivity|]. split; [reflexivity|]. exists [], [].
    simpl. rewrite !app_nil_r, orb_false_r.
    destruct (verbose (self s')); rewrite ?app_nil_r; repeat split.
  - cbn [for_each]. unfold bind at 1.
    destruct (probe_ip (pr, hf) ip s) as [[[pr1 hf1]|e1] s1] eqn:P1;
      apply probe_ip_spec in P1;
      destruct P1 as (Hself1 & Herr1 & ps1 & as1 & Hlog1 & Hout1 & Hv1 & H1).
    + destruct H1 as (-> & Htg1 & -> & ->).
      intros R. apply IH in R.
      destruct R as (Hself & Herr & ps & ats & Hlog & Hout & Hv & H).
      rewrite Hself1 in *.
      destruct ps1 as [|p1 [|p2 [|p3 ps1]]]; try discriminate.
      split; [congruence|]. split; [congruence|].
      exists (p1 :: p2 :: ps), (map attempt_of [p1; p2] ++ ats)%list.
      split; [rewrite Hlog, Hlog1, map_app, <- app_assoc; reflexivity|].
      split; [rewrite Hout, Hout1, <- app_assoc, if_app_nil; reflexivity|].
      split.
      { intros V. specialize (Hv1 V). specialize (Hv V).
        cbn [forallb] in Hv1 |- *. rewrite andb_true_r in Hv1.
        rewrite andb_assoc, Hv1, Hv. reflexivity. }
      cbn [map] in Htg1.
      change (targets (ip :: ips)) with ((ip, 80) :: (ip, 443) :: targets ips).
      destruct r as [[pr' hf']|e].
      * destruct H as (-> & Htg & -> & ->).
        cbn [map port_results_of existsb app] in *.
        rewrite orb_false_r, <- app_assoc, !orb_assoc.
        split; [reflexivity|]. split; [congruence|].
        split; [|reflexivity].
        inversion Htg1 as [[Hp1 Hp2]].
        unfold probe_target in Hp1. rewrite Hp1. reflexivity.
      * destruct H as ((rest & Hrest) & Hc).
        split; [|exact Hc]. exists rest.
        rewrite Hrest, map_app, <- app_assoc.
        destruct p1 as [[i1 q1] o1']; destruct p2 as [[i2 q2] o2'].
        simpl in Htg1 |- *. inversion Htg1; subst. reflexivity.
    + destruct H1 as ((rest & Hrest) & Hc).
      intros R; inversion R; subst; clear R.
      split; [exact Hself1|]. split; [exact Herr1|].
      exists ps1, as1.
      split; [exact Hlog1|]. split; [exact Hout1|]. split; [exact Hv1|].
      split; [|exact Hc].
      exists (rest ++ targets ips)%list.
      change (targets (ip :: ips)) with ([(ip, 80); (ip, 443)] ++ targets ips)%list.
      rewrite Hrest, <- app_assoc. reflexivity.
Qed.

(** ** [check_domain] as a whole *)

(** Everything one [check_domain] call does: the counters, the calls it logs
    and the lines it prints, by answer of the resolver and by result. *)
Lemma check_domain_spec domain s r s' :
  check_domain domain s = (r, s') ->
  timeout (self s') = timeout (self s) /\
  verbose (self s') = verbose (self s) /\
  quiet (self s') = quiet (self s) /\
  total_domains (self s') = total_domains (self s) + 1 /\
  stderr (proc s') = stderr (proc s) /\
  exists (probes : list Probe) (attempts : list Attempt) (lines : list string),
    net_log (proc s') =
      (net_log (proc s) ++
       EvResolve domain (fst (gethostbyname_ex domain (world (proc s))))
         :: map (attempt_event (timeout (self s))) attempts)%list /\
    stdout (proc s') =
      (stdout (proc s)
       ++ (if verbose (self s) then map probe_line probes else [])
       ++ lines)%list /\
    (verbose (self s) = false -> forallb printed_connected probes = true) /\
    match fst (gethostbyname_ex domain (world (proc s))) with
    | inl e =>
        probes = [] /\ attempts = [] /\
        if is_gaierror e then
          dns_failures (self s') = dns_failures (self s) + 1 /\
          failed_domains (self s') = failed_domains (self s) + 1 /\
          (r = Ok false /\
           lines = (if quiet (self s) then [] else [dns_fail_line domain e])
           \/
           quiet (self s) = false /\ lines = [] /\
           exists e', r = Raise e' /\
             exists w, fst (write (dns_fail_line domain e) w) = Some e')
        else
          r = Raise e /\ lines = [] /\
          dns_failures (self s') = dns_failures (self s) /\
          failed_domains (self s') = failed_domains (self s)
    | inr ip_list =>
        dns_failures (self s') = dns_failures (self s) /\
        (exists rest, targets ip_list = (map fst attempts ++ rest)%list) /\
        match r with
        | Ok b =>
            attempts = map attempt_of probes /\
            map probe_target probes = targets ip_list /\
            b = negb (existsb probe_failed probes) /\
            failed_domains (self s') =
              failed_domains (self s) + (if b then 0 else 1) /\
            lines = (if (quiet (self s) && b)%bool then []
                     else [result_line (negb b) domain (port_results_of probes)])
        | Raise e =>
            lines = [] /\
            (failed_domains (self s') = failed_domains (self s) /\
             (raised_by_connect (timeout (self s)) e \/
              verbose (self s) = true /\ raised_by_print e)
             \/
             attempts = map attempt_of probes /\
             map probe_target probes = targets ip_list /\
             failed_domains (self s') =
               failed_domains (self s)
               + (if existsb probe_failed probes then 1 else 0) /\
             (quiet (self s) = false \/ existsb probe_failed probes = true) /\
             exists w,
               fst (write (result_line (existsb probe_failed probes) domain
                             (port_results_of probes)) w) = Some e)
        end
    end.
Proof.
  destruct s as [c [w out err lg]].
  unfold check_domain, resolve_domain. unfold_monad. cbn [self proc world].
  destruct (gethostbyname_ex domain w) as [[e|ip_list] w1] eqn:G; cbn [fst].
  - destruct (is_gaierror e) eqn:Ge; simpl.
    + destruct (quiet c) eqn:Q; crack; intros R; inversion R; subst; clear R;
        simpl; repeat (split; [first [reflexivity | assumption]|]);
        exists [], []; eexists; (split; [reflexivity|]);
        (split; [|finish]); destruct (verbose c); simpl;
        rewrite ?app_nil_r; reflexivity.
    + intros R; inversion R; subst; clear R.
      simpl; repeat (split; [reflexivity|]).
      exists [], [], []. simpl. rewrite !app_nil_r.
      destruct (verbose c); finish.
  - destruct (for_each ip_list probe_ip ([], false) _)
      as [[[pr hf]|e] [c2 [w2 out2 err2 lg2]]] eqn:L;
      apply probe_loop_spec in L;
      destruct L as (Hself & Herr & probes & attempts & Hlog & Hout & Hv & H);
      cbn [self proc stderr stdout net_log timeout verbose incr_total] in *;
      subst c2 err2 lg2 out2.
    + destruct H as (-> & Htg & -> & Hhf). simpl in Hhf. subst hf.
      destruct (existsb probe_failed probes) eqn:F;
        destruct (quiet c) eqn:Q; crack;
        intros R; inversion R; subst; clear R; simpl;
        repeat (split; [first [reflexivity | assumption]|]);
        exists probes, (map attempt_of probes); eexists;
        (split; [rewrite <- app_assoc; reflexivity|]);
        (split;
         [|split;
           [exact Hv
           |split; [reflexivity|];
            (split; [exists []; rewrite app_nil_r, map_fst_attempt_of;
                     symmetry; exact Htg|]);
            rewrite ?F; finish]]).
      all: finish.
    + destruct H as (Hpre & Hc).
      intros R; inversion R; subst; clear R. simpl.
      repeat (split; [reflexivity|]).
      exists probes, attempts, [].
      rewrite app_nil_r, <- app_assoc.
      split; [reflexivity|]. split; [reflexivity|]. split; [exact Hv|].
      split; [reflexivity|]. split; [exact Hpre|].
      split; [reflexivity|]. left. split; [reflexivity | exact Hc].
Qed.

(** ** The counters *)

(** What one [check_domain] call does to the attributes of [self], whether it
    returns or raises. *)
Lemma check_domain_counters domain s r s' :
  check_domain domain s = (r, s') ->
  timeout (self s') = timeout (self s) /\
  verbose (self s') = verbose (self s) /\
  quiet (self s') = quiet (self s) /\
  total_domains (self s') = total_domains (self s) + 1 /\
  0 <= dns_failures (self s') - dns_failures (self s)
    <= failed_domains (self s') - failed_domains (self s) /\
  failed_domains (self s') - failed_domains (self s) <= 1 /\
  match r with
  | Ok b =>
      failed_domains (self s') = failed_domains (self s) + (if b then 0 else 1)
  | Raise _ => True
  end.
Proof.
  intros E. apply check_domain_spec in E.
  destruct E as (Ht & Hv & Hq & Htot & _ & probes & attempts & lines & _ & _ & _ & H).
  repeat (split; [assumption|]).
  destruct (fst (gethostbyname_ex domain (world (proc s)))) as [e|ip_list].
  - destruct H as (_ & _ & H). destruct (is_gaierror e).
    + destruct H as (Hd & Hf & [(-> & _)|(_ & _ & e' & -> & _)]);
        repeat split; lia.
    + destruct H as (-> & _ & Hd & Hf). repeat split; lia.
  - destruct H as (Hd & _ & H). destruct r as [b|e].
    + destruct H as (_ & _ & _ & Hf & _). destruct b; repeat split; lia.
    + destruct H as (_ & [(Hf & _)|(_ & _ & Hf & _)]);
        try destruct (existsb probe_failed probes); repeat split; lia.
Qed.

(** What the loop of lines 103-105 does to [success_count] and to the
    counters, whether it finishes or an exception ends it. *)
Lemma check_loop_counters domains : forall success_count s r s',
  for_each domains count_successes success_count s = (r, s') ->
  timeout (self s') = timeout (self s) /\
  verbose (self s') = verbose (self s) /\
  quiet (self s') = quiet (self s) /\
  0 <= dns_failures (self s') - dns_failures (self s)
    <= failed_domains (self s') - failed_domains (self s) /\
  failed_domains (self s') - failed_domains (self s)
    <= total_domains (self s') - total_domains (self s) /\
  match r with
  | Ok success_count' =>
      total_domains (self s') - total_domains (self s)
        = Z.of_nat (List.length domains) /\
      success_count' - success_count
        = (total_domains (self s') - total_domains (self s))
          - (failed_domains (self s') - failed_domains (self s))
  | Raise _ =>
      1 <= total_domains (self s') - total_domains (self s)
        <= Z.of_nat (List.length domains)
  end.
Proof.
  induction domains as [|d ds IH]; intros n s r s'.
  - simpl. unfold ret. intros R; inversion R; subst. simpl.
    repeat split; try reflexivity; lia.
  - cbn [for_each]. unfold bind at 1. unfold count_successes at 1.
    unfold bind at 1.
    destruct (check_domain d s) as [rd s1] eqn:E.
    pose proof (check_domain_counters _ _ E)
      as (Ht & Hv & Hq & Htot & Hdns & Hf1 & Hrd).
    destruct rd as [b|e].
    + unfold ret at 1. intros R.
      destruct (IH _ _ _ _ R) as (Ht' & Hv' & Hq' & Hd & Hf & Hr).
      rewrite Ht', Hv', Hq'. repeat (split; [congruence|]).
      cbn [List.length]. rewrite Nat2Z.inj_succ.
      destruct r; destruct b; lia.
    + intros R; inversion R; subst.
      repeat (split; [assumption|]).
      cbn [List.length]. rewrite Nat2Z.inj_succ. lia.
Qed.

Lemma for_each_app (A B : Type) (body : B -> A -> M World B) l1 : forall l2 acc s,
  for_each (l1 ++ l2) body acc s =
  match for_each l1 body acc s with
  | (Ok acc', s') => for_each l2 body acc' s'
  | (Raise e, s') => (Raise e, s')
  end.
Proof.
  induction l1 as [|x xs IH]; intros l2 acc s; [reflexivity|].
  cbn [app for_each]. unfold bind.
  destruct (body acc x s) as [[acc'|e] s']; [apply IH | reflexivity].
Qed.

(** The order of the counters is kept by every [check_domain] call, whether
    it returns or raises. *)
Lemma check_domain_keeps_order domain s :
  dns_failures (self s) <= failed_domains (self s) <= total_domains (self s) ->
  let s' := snd (check_domain domain s) in
  dns_failures (self s') <= failed_domains (self s') <= total_domains (self s').
Proof.
  intros H. destruct (check_domain domain s) as [r s'] eqn:E.
  pose proof (check_domain_counters _ _ E) as (_ & _ & _ & Htot & Hd & Hf & _).
  simpl. lia.
Qed.

(** C5: starting from a fresh checker, after any number [k] of the
    [check_domain] calls of a run ([k = 0] is the initial state; past an
    exception the state is the one it left), the counters satisfy
    [dns_failures <= failed_domains <= total_domains]. *)
Theorem counters_ordered_during_run tmo v q (p : Proc World) domains k :
  let s := snd (check_all (firstn k domains)
                  {| self := __init__ tmo v q; proc := p |}) in
  dns_failures (self s) <= failed_domains (self s) <= total_domains (self s).
Proof.
  unfold check_all.
  destruct (for_each (firstn k domains) count_successes 0
              {| self := __init__ tmo v q; proc := p |}) as [r s'] eqn:E.
  apply check_loop_counters in E. simpl in *. lia.
Qed.

(** C10: a [check_domain] call that returns gives [True] exactly when it
    left [failed_domains] as it was; and when the loop of [run_checks] over a
    domain list finishes on a fresh checker, [success_count] is
    [total_domains - failed_domains] and [total_domains] is the length of the
    list. *)
Theorem success_count_complements_failed
    domain s b s1 tmo v q (p : Proc World) domains success_count s' :
  check_domain domain s = (Ok b, s1) ->
  check_all domains {| self := __init__ tmo v q; proc := p |}
    = (Ok success_count, s') ->
  (b = true <-> failed_domains (self s1) = failed_domains (self s)) /\
  success_count = total_domains (self s') - failed_domains (self s') /\
  total_domains (self s') = Z.of_nat (List.length domains).
Proof.
  intros E1 E2.
  apply check_domain_counters in E1. apply check_loop_counters in E2.
  destruct E1 as (_ & _ & _ & _ & _ & _ & Hb).
  simpl in *.
  destruct b; (split; [split; intros; (lia || discriminate || reflexivity) | lia]).
Qed.

Lemma check_loop_step d ds n s :
  for_each (d :: ds) count_successes n s =
  match check_domain d s with
  | (Ok b, s1) => for_each ds count_successes (if b then n + 1 else n) s1
  | (Raise e, s1) => (Raise e, s1)
  end.
Proof.
  cbn [for_each]. unfold bind at 1. unfold count_successes at 1.
  unfold bind at 1. destruct (check_domain d s) as [[b|e] s1]; reflexivity.
Qed.

(** The count the loop starts from only shifts the count it ends with. *)
Lemma count_successes_shift domains : forall n s,
  for_each domains count_successes n s =
  match for_each domains count_successes 0 s with
  | (Ok m, s') => (Ok (n + m), s')
  | (Raise e, s') => (Raise e, s')
  end.
Proof.
  induction domains as [|d ds IH]; intros n s.
  - simpl. unfold ret. rewrite Z.add_0_r. reflexivity.
  - rewrite !check_loop_step.
    destruct (check_domain d s) as [[b|e] s1]; [|reflexivity].
    rewrite (IH (if b then n + 1 else n)), (IH (if b then 0 + 1 else 0)).
    destruct (for_each ds count_successes 0 s1) as [[m|e] s2]; [|reflexivity].
    destruct b; do 2 f_equal; lia.
Qed.

(** ** Lists of targets and call logs *)

Lemma in_targets ip port ip_list :
  In (ip, port) (targets ip_list) -> In ip ip_list /\ (port = 80 \/ port = 443).
Proof.
  induction ip_list as [|ip' ips IH]; simpl; [intros []|].
  intros [H|[H|H]].
  - inversion H; subst. auto.
  - inversion H; subst. auto.
  - destruct (IH H). auto.
Qed.

Lemma NoDup_targets ip_list : NoDup ip_list -> NoDup (targets ip_list).
Proof.
  induction 1 as [|ip ips Hnin Hnd IH]; simpl; [constructor|].
  constructor; [|constructor; [|exact IH]].
  - intros [H|H]; [inversion H|]. apply in_targets in H. tauto.
  - intros H. apply in_targets in H. tauto.
Qed.

Lemma resolved_domains_app (l1 l2 : list NetEvent) :
  resolved_domains (l1 ++ l2) = (resolved_domains l1 ++ resolved_domains l2)%list.
Proof.
  induction l1 as [|[d r|ip port t o] l1 IH]; simpl; [reflexivity| |exact IH].
  f_equal. exact IH.
Qed.

Lemma resolved_domains_attempts tmo (attempts : list Attempt) :
  resolved_domains (map (attempt_event tmo) attempts) = [].
Proof.
  induction attempts as [|[[ip port] o] ats IH]; simpl; [reflexivity | exact IH].
Qed.

Lemma probes_follow_attempts tmo ip_list (attempts : list Attempt) rest tail :
  targets ip_list = (map fst attempts ++ rest)%list ->
  probes_follow tmo ip_list tail ->
  probes_follow tmo ip_list (map (attempt_event tmo) attempts ++ tail).
Proof.
  intros Hpre Htail.
  assert (Hin : forall a, In a attempts -> In (fst a) (targets ip_list)).
  { intros a Ha. rewrite Hpre. apply in_or_app. left.
    apply in_map. exact Ha. }
  clear Hpre. induction attempts as [|[[ip port] o] ats IH]; simpl; [exact Htail|].
  destruct (in_targets ip port ip_list (Hin (ip, port, o) (or_introl eq_refl)))
    as [Hip Hport].
  repeat split; try assumption.
  apply IH. intros a Ha. apply Hin. right. exact Ha.
Qed.

(** The calls of the loop of lines 103-105: one resolution per domain, in
    the order of the list, each followed by the probes of its addresses only.
    An exception leaves a prefix. *)
Lemma check_loop_log domains : forall success_count s r s',
  for_each domains count_successes success_count s = (r, s') ->
  stderr (proc s') = stderr (proc s) /\
  exists delta,
    net_log (proc s') = (net_log (proc s) ++ delta)%list /\
    (forall current, probes_follow (timeout (self s)) current delta) /\
    match r with
    | Ok _ => resolved_domains delta = domains
    | Raise _ => exists rest, domains = (resolved_domains delta ++ rest)%list
    end.
Proof.
  induction domains as [|d ds IH]; intros n s r s'.
  - simpl. unfold ret. intros R; inversion R; subst.
    split; [reflexivity|]. exists []. rewrite app_nil_r. simpl. auto.
  - rewrite check_loop_step.
    destruct (check_domain d s) as [rd s1] eqn:E.
    destruct (check_domain_spec _ _ E)
      as (Ht & _ & _ & _ & Herr & probes & attempts & lines & Hlog & _ & _ & Hr).
    assert (Hd : forall tail,
               (forall current, probes_follow (timeout (self s)) current tail) ->
               forall current,
                 probes_follow (timeout (self s)) current
                   (EvResolve d (fst (gethostbyname_ex d (world (proc s))))
                      :: map (attempt_event (timeout (self s))) attempts ++ tail)).
    { intros tail Htail current. cbn [probes_follow].
      destruct (fst (gethostbyname_ex d (world (proc s)))) as [e|ip_list].
      - destruct Hr as (_ & -> & _). simpl. apply Htail.
      - destruct Hr as (_ & (rest & Hpre) & _).
        eapply probes_follow_attempts; [exact Hpre | apply Htail]. }
    destruct rd as [b|e].
    + intros R.
      destruct (IH _ _ _ _ R) as (Herr' & delta & Hlog' & Hfol & Hres).
      split; [congruence|].
      exists (EvResolve d (fst (gethostbyname_ex d (world (proc s))))
                :: map (attempt_event (timeout (self s))) attempts ++ delta)%list.
      split; [rewrite Hlog', Hlog, <- app_assoc; reflexivity|].
      split; [apply Hd; rewrite <- Ht; exact Hfol|].
      cbn [resolved_domains].
      rewrite resolved_domains_app, resolved_domains_attempts. cbn [app].
      destruct r as [n'|e'].
      * f_equal. exact Hres.
      * destruct Hres as [rest ->]. exists rest. reflexivity.
    + intros R; inversion R; subst. split; [exact Herr|].
      exists (EvResolve d (fst (gethostbyname_ex d (world (proc s))))
                :: map (attempt_event (timeout (self s))) attempts)%list.
      split; [exact Hlog|]. split.
      * intros current.
        rewrite <- (app_nil_r (map _ attempts)). apply Hd. simpl. auto.
      * cbn [resolved_domains]. rewrite resolved_domains_attempts.
        exists ds. reflexivity.
Qed.

(** The lines of the loop: output is only ever appended; when the loop
    finishes in the default mode (neither verbose nor quiet) they are one
    line per domain, in the order of the list. *)
Lemma check_loop_stdout domains : forall success_count s r s',
  for_each domains count_successes success_count s = (r, s') ->
  exists lines,
    stdout (proc s') = (stdout (proc s) ++ lines)%list /\
    match r with
    | Ok _ =>
        if (verbose (self s) || quiet (self s))%bool then True
        else Forall2 domain_line domains lines
    | Raise _ => True
    end.
Proof.
  induction domains as [|d ds IH]; intros n s r s'.
  - simpl. unfold ret. intros R; inversion R; subst.
    exists []. rewrite app_nil_r. split; [reflexivity|].
    destruct (verbose (self s') || quiet (self s'))%bool; constructor.
  - rewrite check_loop_step.
    destruct (check_domain d s) as [rd s1] eqn:E.
    destruct (check_domain_spec _ _ E)
      as (_ & Hv & Hq & _ & _ & probes & attempts & lines & _ & Hout & _ & Hr).
    destruct rd as [b|e].
    + intros R.
      destruct (IH _ _ _ _ R) as (lines' & Hout' & Hshape).
      eexists. split; [rewrite Hout', Hout, <- !app_assoc; reflexivity|].
      destruct r as [n'|e']; [|exact I].
      rewrite Hv, Hq in Hshape.
      destruct (verbose (self s)) eqn:V; [exact I|].
      destruct (quiet (self s)) eqn:Q; [exact I|].
      simpl in Hshape |- *.
      destruct (fst (gethostbyname_ex d (world (proc s)))) as [e|ip_list].
      * destruct Hr as (_ & _ & Hr). destruct (is_gaierror e).
        -- destruct Hr as (_ & _ & [(_ & ->)|(_ & _ & e' & He' & _)]);
             [|discriminate].
           constructor; [|exact Hshape]. left. eexists. reflexivity.
        -- destruct Hr as (Hr & _). discriminate.
      * destruct Hr as (_ & _ & _ & _ & _ & _ & ->). simpl.
        constructor; [|exact Hshape]. right. eexists _, _. reflexivity.
    + intros R; inversion R; subst.
      eexists. split; [exact Hout | exact I].
Qed.

(** ** [run_checks] as a whole *)

Local Arguments check_all : simpl never.

(** The three phases of [run_checks]: the header, which may raise while
    printing; the loop; the summary, which may raise while printing. *)
Lemma run_checks_spec domains s r s' :
  run_checks domains s = (r, s') ->
  exists s0 header,
    self s0 = self s /\
    stderr (proc s0) = stderr (proc s) /\
    net_log (proc s0) = net_log (proc s) /\
    stdout (proc s0) = (stdout (proc s) ++ header)%list /\
    ((exists e,
        r = Raise e /\ s' = s0 /\ quiet (self s) = false /\ raised_by_print e)
     \/
     header = (if quiet (self s) then [] else header_lines) /\
     exists r1 s1,
       check_all domains s0 = (r1, s1) /\
       match r1 with
       | Raise e => r = Raise e /\ s' = s1
       | Ok success_count =>
           self s' = self s1 /\
           stderr (proc s') = stderr (proc s1) /\
           net_log (proc s') = net_log (proc s1) /\
           exists summary,
             stdout (proc s') = (stdout (proc s1) ++ summary)%list /\
             match r with
             | Ok code =>
                 code = exit_code (self s1) /\
                 summary = (if quiet (self s) then []
                            else summary_lines success_count (self s1))
             | Raise e => quiet (self s) = false /\ raised_by_print e
             end
       end).
Proof.
  destruct s as [c [w out err lg]].
  unfold run_checks. unfold_monad. simpl.
  destruct (quiet c) eqn:Q; crack.
  all: try solve
    [ match goal with
      | |- (_, ?st) = _ -> _ =>
          intros R; inversion R; subst; clear R; exists st
      end;
      eexists; simpl;
      repeat (split; [first [reflexivity
                            | rewrite <- ?app_assoc; reflexivity
                            | rewrite ?app_nil_r; reflexivity]|]);
      left; finish ].
  all: match goal with
       | |- context [check_all ?d ?s0] =>
           destruct (check_all d s0)
             as [[n|e] [c1 [? ? ? ?]]] eqn:L;
           pose proof (check_loop_counters _ _ _ L) as (_ & _ & Hq & _);
           cbn [self quiet] in Hq; rewrite Q in Hq;
           pose (start := s0)
       end.
  all: try solve
    [ intros R; inversion R; subst; clear R;
      exists start; subst start; eexists; simpl;
      repeat (split; [first [reflexivity
                            | rewrite <- ?app_assoc; reflexivity
                            | rewrite ?app_nil_r; reflexivity]|]);
      right; split; [reflexivity|]; eexists; eexists;
      split; [exact L|]; split; reflexivity ].
  all: destruct (failed_domains c1 >? 0) eqn:F1;
    destruct (dns_failures c1 >? 0) eqn:F2; crack;
    intros R; inversion R; subst; clear R;
    exists start; subst start; eexists; simpl;
    repeat (split; [first [reflexivity
                          | rewrite <- ?app_assoc; reflexivity
                          | rewrite ?app_nil_r; reflexivity]|]);
    right; (split; [reflexivity|]); eexists; eexists;
    (split; [exact L|]); simpl;
    repeat (split; [reflexivity|]);
    eexists; (split; [|first [ split; [reflexivity|];
                               unfold summary_lines; rewrite ?F1, ?F2;
                               reflexivity
                             | finish ]]);
    unfold summary_lines; rewrite ?F1, ?F2; simpl;
    first [ reflexivity
          | rewrite <- ?app_assoc; reflexivity
          | rewrite ?app_nil_r; reflexivity ].
Qed.

(** The counters and settings across [run_checks], from any checker state. *)
Lemma run_checks_counters domains s r s' :
  run_checks domains s = (r, s') ->
  timeout (self s') = timeout (self s) /\
  verbose (self s') = verbose (self s) /\
  quiet (self s') = quiet (self s) /\
  0 <= dns_failures (self s') - dns_failures (self s)
    <= failed_domains (self s') - failed_domains (self s) /\
  failed_domains (self s') - failed_domains (self s)
    <= total_domains (self s') - total_domains (self s) /\
  match r with
  | Ok code =>
      code = exit_code (self s') /\
      total_domains (self s') - total_domains (self s)
        = Z.of_nat (List.length domains)
  | Raise _ =>
      0 <= total_domains (self s') - total_domains (self s)
        <= Z.of_nat (List.length domains)
  end.
Proof.
  intros R. apply run_checks_spec in R.
  destruct R as (s0 & hdr & Hself & _ & _ & _ & [(e & -> & -> & _)|(_ & r1 & s1 & L & H)]).
  - rewrite Hself. repeat split; try reflexivity; lia.
  - unfold check_all in L. apply check_loop_counters in L.
    rewrite Hself in L. destruct L as (Ht & Hv & Hq & Hd & Hf & Hr).
    destruct r1 as [n|e].
    + destruct H as (Hs' & _ & _ & sm & _ & H). rewrite Hs'.
      repeat (split; [assumption|]).
      destruct r as [code|e]; [|lia].
      destruct H as (-> & _). split; [reflexivity | tauto].
    + destruct H as (-> & ->). repeat (split; [assumption|]). lia.
Qed.

(** The calls across [run_checks]. *)
Lemma run_checks_log domains s r s' :
  run_checks domains s = (r, s') ->
  stderr (proc s') = stderr (proc s) /\
  exists delta,
    net_log (proc s') = (net_log (proc s) ++ delta)%list /\
    (forall current, probes_follow (timeout (self s)) current delta) /\
    match r with
    | Ok _ => resolved_domains delta = domains
    | Raise _ => exists rest, domains = (resolved_domains delta ++ rest)%list
    end.
Proof.
  intros R. apply run_checks_spec in R.
  destruct R as (s0 & hdr & Hself & Herr & Hlog & _
                 & [(e & -> & -> & _)|(_ & r1 & s1 & L & H)]).
  - split; [exact Herr|]. exists []. rewrite app_nil_r.
    split; [exact Hlog|]. split; [simpl; auto|]. exists domains. reflexivity.
  - unfold check_all in L. apply check_loop_log in L.
    rewrite Hself, Herr, Hlog in L.
    destruct L as (Herr' & delta & Hlog' & Hfol & Hres).
    destruct r1 as [n|e].
    + destruct H as (_ & Herr2 & Hlog2 & _).
      split; [congruence|]. exists delta.
      split; [congruence|]. split; [exact Hfol|].
      destruct r; [exact Hres|]. exists []. rewrite app_nil_r. auto.
    + destruct H as (-> & ->).
      split; [exact Herr'|]. exists delta. repeat split; assumption.
Qed.

(** The lines of a run that returns. *)
Lemma run_checks_stdout domains s code s' :
  run_checks domains s = (Ok code, s') ->
  exists lines success_count,
    success_count
      = (total_domains (self s') - total_domains (self s))
        - (failed_domains (self s') - failed_domains (self s)) /\
    stdout (proc s') =
      (stdout (proc s) ++
       if quiet (self s) then lines
       else header_lines ++ lines
              ++ summary_lines success_count (self s'))%list /\
    (if (verbose (self s) || quiet (self s))%bool then True
     else Forall2 domain_line domains lines).
Proof.
  intros R. apply run_checks_spec in R.
  destruct R as (s0 & hdr & Hself & _ & _ & Hout
                 & [(e & He & _)|(-> & r1 & s1 & L & H)]); [discriminate|].
  unfold check_all in L.
  pose proof (check_loop_counters _ _ _ L) as (_ & _ & _ & _ & _ & Hr).
  apply check_loop_stdout in L. rewrite Hself in *.
  destruct L as (lines & Hlines & Hshape).
  destruct r1 as [n|e]; [|destruct H; discriminate].
  destruct H as (Hs' & _ & _ & sm & Hsm & _ & ->).
  exists lines, n. rewrite Hs'. split; [lia|]. split; [|exact Hshape].
  rewrite Hsm, Hlines, Hout.
  destruct (quiet (self s)); rewrite <- ?app_assoc, ?app_nil_r; reflexivity.
Qed.

(** In quiet mode [run_checks] is its loop, then the exit code. *)
Lemma run_checks_quiet domains s :
  quiet (self s) = true ->
  run_checks domains s =
  match check_all domains s with
  | (Ok _, s1) => (Ok (exit_code (self s1)), s1)
  | (Raise e, s1) => (Raise e, s1)
  end.
Proof.
  intros Hq. destruct s as [c [w out err lg]]. simpl in Hq.
  unfold run_checks. unfold_monad. simpl. rewrite Hq. simpl.
  destruct (check_all domains _) as [[n|e] [c1 [w1 out1 err1 lg1]]] eqn:L;
    [|reflexivity].
  unfold check_all in L. apply check_loop_counters in L.
  destruct L as (_ & _ & Hq' & _). simpl in Hq' |- *.
  rewrite Hq', Hq. reflexivity.
Qed.

(** ** The exit code *)

(** C1 (amended): when [run_checks] on a fresh checker returns, the exit
    code is 2 if [dns_failures == total_domains], otherwise 1 if
    [failed_domains > 0], otherwise 0.  Over a non-empty domain list this is
    the policy as specified (with [total_domains > 0]); over the empty list,
    where both counters are 0, the code is 2. *)
Theorem run_checks_exit_code tmo v q (p : Proc World) domains code s' :
  run_checks domains {| self := __init__ tmo v q; proc := p |} = (Ok code, s') ->
  let c := self s' in
  code = (if dns_failures c =? total_domains c then 2
          else if failed_domains c >? 0 then 1
          else 0) /\
  code = match domains with
         | [] => 2
         | _ :: _ =>
             spec_exit_code (total_domains c) (failed_domains c) (dns_failures c)
         end.
Proof.
  intros R. apply run_checks_counters in R.
  destruct R as (_ & _ & _ & Hd & Hf & -> & Ht).
  cbv zeta. split; [reflexivity|].
  unfold exit_code, spec_exit_code. simpl in *.
  destruct domains as [|d ds].
  - simpl in Ht.
    replace (dns_failures (self s')) with 0 by lia.
    replace (total_domains (self s')) with 0 by lia. reflexivity.
  - cbn [List.length] in Ht. rewrite Nat2Z.inj_succ in Ht.
    replace (total_domains (self s') >? 0) with true
      by (symmetry; apply Z.gtb_lt; lia).
    rewrite andb_true_r. reflexivity.
Qed.

(** X4: after a run over a non-empty list on a fresh checker, the exit code
    is 0 exactly when no domain failed, 2 exactly when every domain failed to
    resolve, and 1 exactly when some domain failed but not all failed to
    resolve. *)
Theorem exit_code_meaning tmo v q (p : Proc World) domains code s' :
  domains <> [] ->
  run_checks domains {| self := __init__ tmo v q; proc := p |} = (Ok code, s') ->
  (code = 0 <-> failed_domains (self s') = 0) /\
  (code = 2 <-> dns_failures (self s') = Z.of_nat (List.length domains)) /\
  (code = 1 <->
   0 < failed_domains (self s') /\
   dns_failures (self s') < Z.of_nat (List.length domains)).
Proof.
  intros Hne R. apply run_checks_counters in R.
  destruct R as (_ & _ & _ & Hd & Hf & -> & Htot). simpl in *.
  assert (0 < Z.of_nat (List.length domains)).
  { destruct domains; [congruence|]. cbn [List.length]. lia. }
  unfold exit_code.
  destruct (dns_failures (self s') =? total_domains (self s')) eqn:E1.
  - apply Z.eqb_eq in E1. repeat split; intros; lia.
  - apply Z.eqb_neq in E1.
    destruct (failed_domains (self s') >? 0) eqn:E2.
    + apply Z.gtb_lt in E2. repeat split; intros; lia.
    + assert (failed_domains (self s') <= 0)
        by (destruct (Z.gtb_spec (failed_domains (self s')) 0);
            [discriminate | assumption]).
      repeat split; intros; lia.
Qed.

(** ** [main] *)

(** C6: with a timeout that is not positive, or with both [--verbose] and
    [--quiet], [main] returns 2 after one error message on standard error,
    without any network call: the call log, the world and standard output
    are as they were. *)
Theorem main_rejects_bad_arguments args (p : Proc World) :
  args_timeout args <= 0 \/
  (args_verbose args = true /\ args_quiet args = true) ->
  exists msg,
    main args p = (2, print_stderr msg p) /\
    (msg = "Error: Timeout must be positive" \/
     msg = "Error: Cannot use both --verbose and --quiet") /\
    net_log (snd (main args p)) = net_log p /\
    world (snd (main args p)) = world p /\
    stdout (snd (main args p)) = stdout p.
Proof.
  intros H. unfold main. cbv zeta.
  destruct (args_timeout args <=? 0) eqn:T.
  - eexists. split; [reflexivity|]. simpl. auto.
  - destruct H as [H|[Hv Hq]]; [apply Z.leb_gt in T; lia|].
    rewrite Hv, Hq. simpl. eexists. split; [reflexivity|]. simpl. auto.
Qed.

(** With valid arguments, when the run returns: what [main] gives back. *)
Lemma main_valid_returned args (p : Proc World) code s' :
  0 < args_timeout args ->
  (args_verbose args && args_quiet args)%bool = false ->
  run_checks (domain_list args)
    {| self := __init__ (args_timeout args) (args_verbose args) (args_quiet args);
       proc := p |} = (Ok code, s') ->
  main args p = (code, proc s') /\
  code = spec_exit_code (total_domains (self s')) (failed_domains (self s'))
           (dns_failures (self s')) /\
  total_domains (self s')
    = 6 + Z.of_nat (List.length (match args_domains args with
                                 | Some extra => extra
                                 | None => []
                                 end)) /\
  stderr (proc s') = stderr p.
Proof.
  intros Ht Hvq R. split.
  { unfold main. cbv zeta.
    replace (args_timeout args <=? 0) with false
      by (symmetry; apply Z.leb_gt; lia).
    rewrite Hvq, R. reflexivity. }
  pose proof (run_checks_log _ _ R) as (Herr & _).
  apply run_checks_counters in R.
  destruct R as (_ & _ & _ & _ & _ & -> & Htot).
  unfold domain_list in Htot. rewrite length_app, Nat2Z.inj_add in Htot.
  change (Z.of_nat (List.length DEFAULT_DOMAINS)) with 6 in Htot.
  cbn [self total_domains __init__ proc stderr] in Htot, Herr.
  split; [|split; [lia | exact Herr]].
  unfold exit_code, spec_exit_code.
  replace (total_domains (self s') >? 0) with true
    by (symmetry; apply Z.gtb_lt; lia).
  rewrite andb_true_r. reflexivity.
Qed.

(** X2: with valid arguments, when the run returns, [main] returns the code
    of the run, which is the specified policy on the final counters (the
    list is never empty: the six defaults are always checked, then the [-d]
    domains), and nothing was written to standard error. *)
Theorem main_follows_policy args (p : Proc World) code s' :
  0 < args_timeout args ->
  (args_verbose args && args_quiet args)%bool = false ->
  run_checks (domain_list args)
    {| self := __init__ (args_timeout args) (args_verbose args) (args_quiet args);
       proc := p |} = (Ok code, s') ->
  main args p = (code, proc s') /\
  code = spec_exit_code (total_domains (self s')) (failed_domains (self s'))
           (dns_failures (self s')) /\
  total_domains (self s')
    = 6 + Z.of_nat (List.length (match args_domains args with
                                 | Some extra => extra
                                 | None => []
                                 end)) /\
  stderr (proc s') = stderr p.
Proof. apply main_valid_returned. Qed.

(** ** Calls and lines of a run *)

(** X5: the resolutions of a run are those of its domains, one each, in the
    order of the list, duplicates included; a run ended by an exception has
    resolved a prefix of the list. *)
Theorem run_resolves_domains_in_order domains s r s' :
  run_checks domains s = (r, s') ->
  exists delta,
    net_log (proc s') = (net_log (proc s) ++ delta)%list /\
    match r with
    | Ok _ => resolved_domains delta = domains
    | Raise _ => exists rest, domains = (resolved_domains delta ++ rest)%list
    end.
Proof.
  intros R. destruct (run_checks_log _ _ R) as (_ & delta & Hlog & _ & Hres).
  exists delta. split; assumption.
Qed.

(** X6: every connection a run attempts goes to an address the resolver
    returned for the domain resolved just before, on port 80 or 443, with the
    timeout of the checker; before the first resolution and after a failed
    one there is none. *)
Theorem run_probes_only_resolved_addresses domains s r s' :
  run_checks domains s = (r, s') ->
  exists delta,
    net_log (proc s') = (net_log (proc s) ++ delta)%list /\
    probes_follow (timeout (self s)) [] delta.
Proof.
  intros R. destruct (run_checks_log _ _ R) as (_ & delta & Hlog & Hfol & _).
  exists delta. split; [exact Hlog | apply Hfol].
Qed.

(** X7: in the default mode (neither verbose nor quiet) a run that returns
    has printed the two header lines, then exactly one line per domain in the
    order of the list (its DNS failure line or its result line), then the
    summary lines. *)
Theorem default_mode_report domains s code s' :
  verbose (self s) = false ->
  quiet (self s) = false ->
  run_checks domains s = (Ok code, s') ->
  exists lines success_count,
    stdout (proc s') =
      (stdout (proc s) ++ header_lines ++ lines
         ++ summary_lines success_count (self s'))%list /\
    Forall2 domain_line domains lines.
Proof.
  intros Hv Hq R.
  destruct (run_checks_stdout _ _ R) as (lines & n & _ & Hout & Hshape).
  rewrite Hv, Hq in *. simpl in Hshape.
  exists lines, n. split; assumption.
Qed.

(** X8: in verbose mode a [check_domain] call that probes a resolved domain
    and returns prints one line per probe, in the order of the probes, and
    then the result line of the domain. *)
Theorem verbose_mode_lines domain s ip_list w1 b s' :
  verbose (self s) = true ->
  quiet (self s) = false ->
  gethostbyname_ex domain (world (proc s)) = (inr ip_list, w1) ->
  check_domain domain s = (Ok b, s') ->
  exists probes,
    map probe_target probes = targets ip_list /\
    stdout (proc s') =
      (stdout (proc s) ++ map probe_line probes
         ++ [result_line (negb b) domain (port_results_of probes)])%list.
Proof.
  intros Hv Hq G E.
  destruct (check_domain_spec _ _ E)
    as (_ & _ & _ & _ & _ & probes & attempts & lines & _ & Hout & _ & Hr).
  rewrite G in Hr. cbn [fst] in Hr.
  destruct Hr as (_ & _ & _ & Htg & _ & _ & ->).
  exists probes. split; [exact Htg|].
  rewrite Hout, Hv, Hq. reflexivity.
Qed.

(** X9: in quiet mode, a run over [l1 ++ l2] is a run over [l1] followed, on
    the same checker, by a run over [l2]: same final state, same exit code
    (the counters are not reset between runs), and an exception in the first
    ends both. *)
Theorem quiet_runs_compose l1 l2 s :
  quiet (self s) = true ->
  run_checks (l1 ++ l2) s =
  match run_checks l1 s with
  | (Ok _, s1) => run_checks l2 s1
  | (Raise e, s1) => (Raise e, s1)
  end.
Proof.
  intros Hq. rewrite (run_checks_quiet (l1 ++ l2) s Hq).
  rewrite (run_checks_quiet l1 s Hq). unfold check_all.
  rewrite for_each_app.
  destruct (for_each l1 count_successes 0 s) as [[n1|e] s1] eqn:E1;
    [|reflexivity].
  apply check_loop_counters in E1. destruct E1 as (_ & _ & Hq1 & _).
  rewrite run_checks_quiet by congruence. unfold check_all.
  rewrite count_successes_shift.
  destruct (for_each l2 count_successes 0 s1) as [[m|e] s2]; reflexivity.
Qed.

(** X10: when a run on a fresh, non-quiet checker returns 0, every domain of
    the list was counted and none failed, and the report ends with the single
    line [Summary: n/n domains fully accessible], [n] the number of domains:
    neither the issues line nor the DNS failures line is printed. *)
Theorem clean_run_summary tmo v (p : Proc World) domains s' :
  run_checks domains {| self := __init__ tmo v false; proc := p |} = (Ok 0, s') ->
  exists lines,
    stdout (proc s') =
      (stdout p ++ header_lines ++ lines
         ++ [summary_line (Z.of_nat (List.length domains)) (self s')])%list /\
    total_domains (self s') = Z.of_nat (List.length domains) /\
    failed_domains (self s') = 0 /\
    dns_failures (self s') = 0.
Proof.
  intros R.
  destruct (run_checks_stdout _ _ R) as (lines & n & Hn & Hout & _).
  apply run_checks_counters in R.
  destruct R as (_ & _ & _ & Hd & Hf & Hc & Htot). simpl in *.
  unfold exit_code in Hc.
  destruct (dns_failures (self s') =? total_domains (self s')); [discriminate|].
  destruct (failed_domains (self s') >? 0) eqn:E2; [discriminate|].
  assert (failed_domains (self s') <= 0)
    by (destruct (Z.gtb_spec (failed_domains (self s')) 0);
        [discriminate | assumption]).
  assert (Hf0 : failed_domains (self s') = 0) by lia.
  assert (Hd0 : dns_failures (self s') = 0) by lia.
  exists lines. split; [|repeat split; lia].
  rewrite Hout. unfold summary_lines. rewrite E2, Hd0. simpl.
  replace n with (Z.of_nat (List.length domains)) by lia.
  reflexivity.
Qed.

(** X11: a run never writes to standard error and never changes the
    settings of the checker, whether it returns or is ended by an exception;
    the counters never decrease. *)
Theorem run_checks_keeps_stderr_and_settings domains s :
  let s' := snd (run_checks domains s) in
  stderr (proc s') = stderr (proc s) /\
  timeout (self s') = timeout (self s) /\
  verbose (self s') = verbose (self s) /\
  quiet (self s') = quiet (self s) /\
  total_domains (self s) <= total_domains (self s') /\
  failed_domains (self s) <= failed_domains (self s') /\
  dns_failures (self s) <= dns_failures (self s').
Proof.
  destruct (run_checks domains s) as [r s'] eqn:R. simpl.
  pose proof (run_checks_log _ _ R) as (Herr & _).
  apply run_checks_counters in R.
  destruct R as (Ht & Hv & Hq & Hd & Hf & _).
  repeat (split; [assumption|]). lia.
Qed.

(** X12: when the resolver raises anything but [socket.gaierror],
    [check_domain] lets the exception through: the domain is counted in
    [total_domains] only, nothing is printed and no probe is made. *)
Theorem check_domain_resolver_error_propagates domain s e w1 :
  gethostbyname_ex domain (world (proc s)) = (inl e, w1) ->
  is_gaierror e = false ->
  exists s',
    check_domain domain s = (Raise e, s') /\
    total_domains (self s') = total_domains (self s) + 1 /\
    failed_domains (self s') = failed_domains (self s) /\
    dns_failures (self s') = dns_failures (self s) /\
    stdout (proc s') = stdout (proc s) /\
    net_log (proc s') = (net_log (proc s) ++ [EvResolve domain (inl e)])%list.
Proof.
  intros G He.
  destruct (check_domain domain s) as [r s'] eqn:E.
  destruct (check_domain_spec _ _ E)
    as (_ & _ & _ & Htot & _ & probes & attempts & lines & Hlog & Hout & _ & Hr).
  rewrite G in Hr, Hlog. cbn [fst] in Hr, Hlog. rewrite He in Hr.
  destruct Hr as (-> & -> & -> & -> & Hd & Hf).
  exists s'. split; [reflexivity|].
  repeat (split; [assumption|]).
  split; [|exact Hlog].
  rewrite Hout. destruct (verbose (self s)); simpl; rewrite app_nil_r; reflexivity.
Qed.

(** ** Where the exceptions of a run come from *)

Lemma check_domain_raise_cause domain s e s' :
  check_domain domain s = (Raise e, s') ->
  raised_by_print e \/ raised_by_connect (timeout (self s)) e \/
  raised_by_resolver [domain] e.
Proof.
  intros E.
  destruct (check_domain_spec _ _ E)
    as (_ & _ & _ & _ & _ & probes & attempts & lines & _ & _ & _ & Hr).
  destruct (fst (gethostbyname_ex domain (world (proc s)))) as [e0|ip_list] eqn:G.
  - destruct Hr as (_ & _ & Hr). destruct (is_gaierror e0) eqn:Ge.
    + destruct Hr as (_ & _ & [(Hr & _)|(_ & _ & e' & Hr & w & Hw)]);
        [discriminate|].
      inversion Hr; subst. left. exists (dns_fail_line domain e0), w. exact Hw.
    + destruct Hr as (Hr & _). inversion Hr; subst.
      right. right. split; [exact Ge|].
      exists domain, (world (proc s)). split; [left; reflexivity | exact G].
  - destruct Hr as (_ & _ & _ & [(_ & [Hc|(_ & Hp)])|(_ & _ & _ & _ & w & Hw)]).
    + right. left. exact Hc.
    + left. exact Hp.
    + left. eexists _, w. exact Hw.
Qed.

Lemma check_loop_raise_cause domains : forall n s e s',
  for_each domains count_successes n s = (Raise e, s') ->
  raised_by_print e \/ raised_by_connect (timeout (self s)) e \/
  raised_by_resolver domains e.
Proof.
  induction domains as [|d ds IH]; intros n s e s'.
  - simpl. unfold ret. discriminate.
  - rewrite check_loop_step.
    destruct (check_domain d s) as [[b|e1] s1] eqn:E.
    + intros R. apply check_domain_counters in E. destruct E as (Ht & _).
      destruct (IH _ _ _ _ R) as [H|[H|(Hg & d' & w & Hin & Hw)]].
      * left. exact H.
      * right. left. rewrite <- Ht. exact H.
      * right. right. split; [exact Hg|].
        exists d', w. split; [right; exact Hin | exact Hw].
    + intros R; inversion R; subst.
      destruct (check_domain_raise_cause _ _ E)
        as [H|[H|(Hg & d' & w & Hin & Hw)]].
      * left. exact H.
      * right. left. exact H.
      * right. right. split; [exact Hg|].
        exists d', w. split; [|exact Hw].
        destruct Hin as [<-|[]]. left. reflexivity.
Qed.

(** An exception that ends [run_checks] was raised by a write to standard
    output, by a connection (and is no [Exception]) or by the resolver (and is
    no [socket.gaierror]). *)
Lemma run_checks_raise_cause domains s e s' :
  run_checks domains s = (Raise e, s') ->
  raised_by_print e \/ raised_by_connect (timeout (self s)) e \/
  raised_by_resolver domains e.
Proof.
  intros R. apply run_checks_spec in R.
  destruct R as (s0 & hdr & Hself & _ & _ & _
                 & [(e' & He & _ & _ & Hp)|(_ & r1 & s1 & L & H)]).
  - inversion He; subst. left. exact Hp.
  - destruct r1 as [n|e1].
    + destruct H as (_ & _ & _ & sm & _ & _ & Hp). left. exact Hp.
    + destruct H as (He & _). inversion He; subst.
      unfold check_all in L. apply check_loop_raise_cause in L.
      rewrite Hself in L. exact L.
Qed.




(** ** DNS failure (lines 50-57) *)

(** C2 (amended): when the resolver raises [socket.gaierror] for a domain,
    [check_domain] adds exactly 1 to [dns_failures], to [failed_domains] and
    to [total_domains] and makes no network call but the resolution itself
    (zero probes).  It returns [False], and the loop of the run goes on with
    the remaining domains, unless printing the DNS failure line raises, which
    can only happen outside quiet mode. *)
Theorem check_domain_gaierror domain s msg w1 r s' :
  gethostbyname_ex domain (world (proc s)) = (inl (gaierror msg), w1) ->
  check_domain domain s = (r, s') ->
  dns_failures (self s') = dns_failures (self s) + 1 /\
  failed_domains (self s') = failed_domains (self s) + 1 /\
  total_domains (self s') = total_domains (self s) + 1 /\
  net_log (proc s') =
    (net_log (proc s) ++ [EvResolve domain (inl (gaierror msg))])%list /\
  (r = Ok false \/
   quiet (self s) = false /\
   exists e, r = Raise e /\
     exists w, fst (write (dns_fail_line domain (gaierror msg)) w) = Some e) /\
  (quiet (self s) = true \/ console_never_raises -> r = Ok false) /\
  (r = Ok false ->
   forall rest success_count,
     for_each (domain :: rest) count_successes success_count s =
     for_each rest count_successes success_count s').
Proof.
  intros G E.
  destruct (check_domain_spec _ _ E)
    as (_ & _ & _ & Ht & _ & probes & attempts & lines & Hlog & _ & _ & Hr).
  rewrite G in Hr, Hlog. cbn [fst is_gaierror] in Hr, Hlog.
  destruct Hr as (_ & -> & Hd & Hf & Hr).
  split; [exact Hd|]. split; [exact Hf|]. split; [exact Ht|].
  split; [exact Hlog|].
  assert (Hcases :
    r = Ok false \/
    quiet (self s) = false /\
    exists e, r = Raise e /\
      exists w, fst (write (dns_fail_line domain (gaierror msg)) w) = Some e).
  { destruct Hr as [(-> & _)|(Hq & _ & He)]; [left; reflexivity|].
    right. split; assumption. }
  split; [exact Hcases|]. split.
  - intros [Hq|Hc]; destruct Hcases as [H|(Hq' & e & _ & w & Hw)];
      try exact H; [congruence|].
    rewrite (Hc _ w) in Hw. discriminate.
  - intros -> rest n. rewrite check_loop_step, E. reflexivity.
Qed.

(** C9 (amended): when the resolver returns an empty address list,
    [check_domain] makes no probe (the resolution is the only network call),
    adds 1 to [total_domains] and leaves [dns_failures] and [failed_domains]
    as they were.  It returns [True], unless printing the result line raises,
    which can only happen outside quiet mode. *)
Theorem check_domain_no_addresses domain s w1 r s' :
  gethostbyname_ex domain (world (proc s)) = (inr [], w1) ->
  check_domain domain s = (r, s') ->
  net_log (proc s') = (net_log (proc s) ++ [EvResolve domain (inr [])])%list /\
  total_domains (self s') = total_domains (self s) + 1 /\
  dns_failures (self s') = dns_failures (self s) /\
  failed_domains (self s') = failed_domains (self s) /\
  (r = Ok true \/
   quiet (self s) = false /\
   exists e, r = Raise e /\
     exists w, fst (write (result_line false domain []) w) = Some e) /\
  (quiet (self s) = true \/ console_never_raises -> r = Ok true).
Proof.
  intros G.
  assert (H : check_domain domain s = (r, s') ->
    net_log (proc s') = (net_log (proc s) ++ [EvResolve domain (inr [])])%list /\
    total_domains (self s') = total_domains (self s) + 1 /\
    dns_failures (self s') = dns_failures (self s) /\
    failed_domains (self s') = failed_domains (self s) /\
    (r = Ok true \/
     quiet (self s) = false /\
     exists e, r = Raise e /\
       exists w, fst (write (result_line false domain []) w) = Some e)).
  { destruct s as [c [w out err lg]]. simpl in G.
    unfold check_domain, resolve_domain. unfold_monad. simpl.
    rewrite G. simpl.
    destruct (quiet c) eqn:Q; crack; intros R; inversion R; subst; clear R;
      simpl; rewrite ?app_nil_r; repeat (split; [reflexivity|]); finish. }
  intros E. destruct (H E) as (Hlog & Ht & Hd & Hf & Hcases).
  repeat (split; [assumption|]).
  intros [Hq|Hc]; destruct Hcases as [Hr|(Hq' & e & _ & w & Hw)];
    try exact Hr; [congruence|].
  rewrite (Hc _ w) in Hw. discriminate.
Qed.

(** ** Probing (lines 59-94) *)



(** C4 (amended): when the resolver returns addresses, the connections
    [check_domain] attempts are, in this order, ports 80 then 443 of the
    first address, 80 then 443 of the second, and so on, as far as the call
    gets: a prefix of that list, one attempt per entry, no pair twice when
    the addresses are distinct.  The whole list is attempted whenever the
    call returns, and, when connections raise nothing but [Exception]s,
    whenever verbose mode is off or standard output takes every line,
    whatever the outcomes of the connections. *)
Theorem check_domain_probes_each_pair_once domain s ip_list w1 r s' :
  gethostbyname_ex domain (world (proc s)) = (inr ip_list, w1) ->
  check_domain domain s = (r, s') ->
  exists (attempts : list Attempt) rest,
    net_log (proc s') =
      (net_log (proc s) ++
       EvResolve domain (inr ip_list)
         :: map (attempt_event (timeout (self s))) attempts)%list /\
    flat_map (fun ip => [(ip, 80); (ip, 443)]) ip_list
      = (map fst attempts ++ rest)%list /\
    (NoDup ip_list -> NoDup (map fst attempts)) /\
    ((exists b, r = Ok b) -> rest = []) /\
    (verbose (self s) = false \/ console_never_raises ->
     probes_never_interrupted -> rest = []).
Proof.
  intros G E.
  destruct (check_domain_spec _ _ E)
    as (_ & _ & _ & _ & _ & probes & attempts & lines & Hlog & _ & _ & Hr).
  rewrite G in Hr, Hlog. cbn [fst] in Hr, Hlog.
  destruct Hr as (_ & (rest & Hpre) & Hr).
  exists attempts, rest. split; [exact Hlog|]. split; [exact Hpre|].
  assert (Hfull : attempts = map attempt_of probes ->
                  map probe_target probes = targets ip_list -> rest = []).
  { intros -> Htg. rewrite map_fst_attempt_of, Htg in Hpre.
    rewrite <- (app_nil_r (targets ip_list)) in Hpre at 1.
    apply app_inv_head in Hpre. symmetry. exact Hpre. }
  split; [|split].
  - intros Hnd. apply NoDup_targets in Hnd. rewrite Hpre in Hnd.
    apply NoDup_app_remove_r in Hnd. exact Hnd.
  - intros (b & ->). destruct Hr as (Ha & Htg & _). auto.
  - intros Hvc Hw. destruct r as [b|e].
    + destruct Hr as (Ha & Htg & _). auto.
    + destruct Hr as (_ & [(_ & [(He & ip & port & w & Hc)
                                |(V' & line & w & Hp)])
                          |(Ha & Htg & _)]).
      * apply Hw in Hc. congruence.
      * destruct Hvc as [V|Hc]; [congruence|].
        rewrite Hc in Hp. discriminate.
      * auto.
Qed.

(** ** Quiet mode *)

(** C8 (amended): in quiet mode (without verbose) a [check_domain] call
    prints nothing when the resolver raises, also when it raises
    [socket.gaierror] and the call returns [False]; for a resolved domain it
    prints the result line, and nothing else, exactly when it returns
    [False], and nothing when it returns [True]; when an exception ends it,
    nothing is printed, and the exception is either what a connection raised
    or what the [print] of the result line raised.  [run_checks] leaves the
    state exactly as its loop left it: neither header nor summary lines. *)
Theorem quiet_mode_output s domain domains :
  quiet (self s) = true ->
  verbose (self s) = false ->
  (let (r, s') := check_domain domain s in
   match fst (gethostbyname_ex domain (world (proc s))) with
   | inl e =>
       r = (if is_gaierror e then Ok false else Raise e) /\
       stdout (proc s') = stdout (proc s)
   | inr ip_list =>
       match r with
       | Ok true => stdout (proc s') = stdout (proc s)
       | Ok false =>
           exists probes,
             map probe_target probes = targets ip_list /\
             stdout (proc s') =
               (stdout (proc s)
                ++ [result_line true domain (port_results_of probes)])%list
       | Raise e =>
           stdout (proc s') = stdout (proc s) /\
           (raised_by_connect (timeout (self s)) e \/
            exists probes w,
              map probe_target probes = targets ip_list /\
              fst (write (result_line true domain (port_results_of probes)) w)
                = Some e)
       end
   end) /\
  snd (run_checks domains s) = snd (check_all domains s).
Proof.
  intros Hq Hv. split.
  - destruct (check_domain domain s) as [r s'] eqn:E.
    destruct (check_domain_spec _ _ E)
      as (_ & _ & _ & _ & _ & probes & attempts & lines & _ & Hout & _ & Hr).
    rewrite Hv, Hq in *. cbn [app] in Hout.
    destruct (fst (gethostbyname_ex domain (world (proc s)))) as [e|ip_list].
    + destruct Hr as (_ & _ & Hr). destruct (is_gaierror e).
      * destruct Hr as (_ & _ & [(-> & ->)|(Hq' & _)]); [|discriminate].
        rewrite app_nil_r in Hout. split; [reflexivity | exact Hout].
      * destruct Hr as (-> & -> & _).
        rewrite app_nil_r in Hout. split; [reflexivity | exact Hout].
    + destruct Hr as (_ & _ & Hr). destruct r as [[|]|e].
      * destruct Hr as (_ & _ & _ & _ & ->).
        rewrite app_nil_r in Hout. exact Hout.
      * destruct Hr as (_ & Htg & Hb & _ & ->).
        exists probes. split; [exact Htg | exact Hout].
      * destruct Hr as (-> & Hr). rewrite app_nil_r in Hout.
        split; [exact Hout|].
        destruct Hr as [(_ & [Hc|(V & _)])|(_ & Htg & _ & [Hq'|F] & w & Hw)];
          try discriminate.
        -- left. exact Hc.
        -- right. rewrite F in Hw. exists probes, w. split; assumption.
  - rewrite (run_checks_quiet _ _ Hq).
    destruct (check_all domains s) as [[n|e] s1]; reflexivity.
Qed.

(** ** Interruption and unexpected errors *)


(** ** Runs that finish *)

(** X3: with valid arguments, when the resolver raises nothing but
    [socket.gaierror] for the domains of the list, connections raise nothing
    but [Exception]s and standard output takes every line, [main] gets to the
    end of the run: it returns the policy's code for the final counters and
    leaves standard error as it was. *)
Theorem main_returns_on_handled_failures args (p : Proc World) :
  (forall domain (w : World) e,
     In domain (domain_list args) ->
     fst (gethostbyname_ex domain w) = inl e -> is_gaierror e = true) ->
  probes_never_interrupted ->
  console_never_raises ->
  0 < args_timeout args ->
  (args_verbose args && args_quiet args)%bool = false ->
  exists s',
    snd (run_checks (domain_list args)
           {| self := __init__ (args_timeout args) (args_verbose args)
                        (args_quiet args);
              proc := p |}) = s' /\
    main args p =
      (spec_exit_code (total_domains (self s')) (failed_domains (self s'))
         (dns_failures (self s')),
       proc s') /\
    stderr (proc s') = stderr p.
Proof.
  intros Hdns Htcp Hout Ht Hvq.
  destruct (run_checks (domain_list args) _) as [[code|e] s'] eqn:R.
  - destruct (main_valid_returned _ _ Ht Hvq R) as (Hm & Hc & _ & He).
    exists s'. split; [reflexivity|]. split; [|exact He].
    rewrite Hm, Hc. reflexivity.
  - exfalso. apply run_checks_raise_cause in R.
    destruct R as [(line & w & Hw)|[(He & ip & port & w & Hw)
                                   |(He & d & w & Hin & Hw)]].
    + rewrite Hout in Hw. discriminate.
    + apply Htcp in Hw. congruence.
    + apply (Hdns _ _ _ Hin) in Hw. congruence.
Qed.

End Properties.
(** * Concrete runs *)

Lemma utf8_console_never_raises : @console_never_raises nat utf8_console.
Proof. intros line w. reflexivity. Defined.

(** The empty run: [run_checks] returns 2 where the specified policy gives
    0, both [dns_failures] and [total_domains] being 0. *)
Lemma run_checks_empty_counterexample :
  let (r, s') := @run_checks nat net1 utf8_console [] (fresh 3 false false) in
  r = Ok 2 /\
  total_domains (self s') = 0 /\
  dns_failures (self s') = 0 /\
  spec_exit_code (total_domains (self s')) (failed_domains (self s'))
    (dns_failures (self s')) = 0.
Proof. vm_compute. repeat split. Qed.

Lemma run_checks_exit_code_witness :
  exists s',
    @run_checks nat net1 utf8_console ["good.example"; "nodns.example"] (fresh 3 false false)
      = (Ok 1, s') /\
    1 = spec_exit_code (total_domains (self s')) (failed_domains (self s'))
          (dns_failures (self s')).
Proof.
  eexists. split; [vm_compute; reflexivity|].
  apply (@run_checks_exit_code nat net1 utf8_console 3 false false (start 0%nat)
           ["good.example"; "nodns.example"] 1 _).
  vm_compute. reflexivity.
Defined.

Lemma net1_probes_never_interrupted : @probes_never_interrupted nat net1.
Proof.
  intros ip port tmo w e. simpl. unfold tcp1.
  destruct (String.eqb ip "10.0.0.2" && (port =? 443))%bool;
    intros H; inversion H; reflexivity.
Defined.

Lemma success_count_complements_failed_witness :
  exists s1 s' : State nat,
    (false = true <-> failed_domains (self s1) = 0) /\
    1 = total_domains (self s') - failed_domains (self s') /\
    total_domains (self s') = 3.
Proof.
  destruct (@check_domain nat net1 utf8_console "two.example" (fresh 3 false false))
    as [r1 s1] eqn:E1.
  destruct (@check_all nat net1 utf8_console
              ["good.example"; "two.example"; "nodns.example"]
              (fresh 3 false false)) as [r2 s'] eqn:E2.
  assert (R1 : r1 = Ok false) by (vm_compute in E1; congruence).
  assert (R2 : r2 = Ok 1) by (vm_compute in E2; congruence).
  subst r1 r2. exists s1, s'.
  exact (@success_count_complements_failed nat net1 utf8_console
           "two.example" (fresh 3 false false) false s1
           3 false false (start 0%nat)
           ["good.example"; "two.example"; "nodns.example"] 1 s' E1 E2).
Defined.

Lemma main_rejects_bad_arguments_witness :
  exists msg,
    @main nat net1 utf8_console (mkArgs None 0 false false) (start 0%nat)
      = (2, print_stderr msg (start 0%nat)) /\
    net_log (snd (@main nat net1 utf8_console (mkArgs None 0 false false) (start 0%nat))) = [].
Proof.
  destruct (@main_rejects_bad_arguments nat net1 utf8_console (mkArgs None 0 false false)
              (start 0%nat))
    as (msg & E & _ & Hlog & _).
  - left. simpl. lia.
  - exists msg. split; [exact E | exact Hlog].
Defined.

(** The six defaults do not resolve on this network, the added domain is
    fully reachable: seven domains counted, exit code 1. *)
Lemma main_follows_policy_witness :
  exists s' : State nat,
    @main nat net1 utf8_console (mkArgs (Some ["good.example"]) 3 false true) (start 0%nat)
      = (1, proc s') /\
    total_domains (self s') = 7.
Proof.
  destruct (@run_checks nat net1 utf8_console
              (domain_list (mkArgs (Some ["good.example"]) 3 false true))
              {| self := __init__ 3 false true; proc := start 0%nat |})
    as [r s'] eqn:R.
  assert (Hr : r = Ok 1) by (vm_compute in R; congruence). subst r.
  destruct (@main_follows_policy nat net1 utf8_console
              (mkArgs (Some ["good.example"]) 3 false true) (start 0%nat) 1 s')
    as (Hm & _ & Ht & _).
  - simpl. lia.
  - reflexivity.
  - exact R.
  - exists s'. split; [exact Hm | exact Ht].
Defined.

Lemma exit_code_meaning_witness :
  exists s' : State nat,
    @run_checks nat net1 utf8_console ["good.example"; "nodns.example"] (fresh 3 false false)
      = (Ok 1, s') /\
    0 < failed_domains (self s') /\
    dns_failures (self s') < 2.
Proof.
  destruct (@run_checks nat net1 utf8_console ["good.example"; "nodns.example"]
              (fresh 3 false false)) as [r s'] eqn:R.
  assert (Hr : r = Ok 1) by (vm_compute in R; congruence). subst r.
  destruct (@exit_code_meaning nat net1 utf8_console 3 false false (start 0%nat)
              ["good.example"; "nodns.example"] 1 s')
    as (_ & _ & H1).
  - discriminate.
  - exact R.
  - exists s'. split; [reflexivity|]. apply H1. reflexivity.
Defined.

Lemma run_resolves_domains_in_order_witness :
  exists (s' : State nat) delta,
    net_log (proc s') = delta /\
    resolved_domains delta = ["two.example"; "nodns.example"; "two.example"].
Proof.
  destruct (@run_checks nat net1 utf8_console ["two.example"; "nodns.example"; "two.example"]
              (fresh 3 false true)) as [r s'] eqn:R.
  assert (Hr : exists code, r = Ok code)
    by (vm_compute in R; eexists; symmetry; apply (f_equal fst R)).
  destruct Hr as [code ->].
  destruct (@run_resolves_domains_in_order nat net1 utf8_console _ _ _ _ R)
    as (delta & Hlog & Hres).
  exists s', delta. split; [exact Hlog | exact Hres].
Defined.

Lemma run_probes_only_resolved_addresses_witness :
  exists delta,
    net_log (proc (snd (@run_checks nat net1 utf8_console ["two.example"; "nodns.example"]
                          (fresh 3 false true)))) = delta /\
    probes_follow 3 [] delta.
Proof.
  destruct (@run_probes_only_resolved_addresses nat net1 utf8_console
              ["two.example"; "nodns.example"] (fresh 3 false true) _ _
              (surjective_pairing _))
    as (delta & Hlog & Hfol).
  exists delta. split; [exact Hlog | exact Hfol].
Defined.

Lemma default_mode_report_witness :
  exists (s' : State nat) lines success_count,
    stdout (proc s') =
      (header_lines ++ lines ++ summary_lines success_count (self s'))%list /\
    Forall2 domain_line ["good.example"; "nodns.example"] lines.
Proof.
  destruct (@run_checks nat net1 utf8_console ["good.example"; "nodns.example"]
              (fresh 3 false false)) as [r s'] eqn:R.
  assert (Hr : r = Ok 1) by (vm_compute in R; congruence). subst r.
  destruct (@default_mode_report nat net1 utf8_console ["good.example"; "nodns.example"]
              (fresh 3 false false) 1 s' eq_refl eq_refl R)
    as (lines & n & Hout & Hshape).
  exists s', lines, n. split; [exact Hout | exact Hshape].
Defined.

Lemma verbose_mode_lines_witness :
  exists (s' : State nat) (probes : list Probe),
    map probe_target probes
      = [("10.0.0.1", 80); ("10.0.0.1", 443); ("10.0.0.2", 80); ("10.0.0.2", 443)] /\
    stdout (proc s') =
      (map probe_line probes
         ++ [result_line true "two.example" (port_results_of probes)])%list.
Proof.
  destruct (@check_domain nat net1 utf8_console "two.example" (fresh 3 true false))
    as [r s'] eqn:E.
  assert (Hr : r = Ok false) by (vm_compute in E; congruence). subst r.
  destruct (@verbose_mode_lines nat net1 utf8_console "two.example" (fresh 3 true false)
              ["10.0.0.1"; "10.0.0.2"] 1%nat false s' eq_refl eq_refl eq_refl E)
    as (probes & Htg & Hout).
  exists s', probes. split; [exact Htg | exact Hout].
Defined.

Lemma quiet_runs_compose_witness :
  @run_checks nat net1 utf8_console (["good.example"] ++ ["nodns.example"]) (fresh 3 false true)
  = match @run_checks nat net1 utf8_console ["good.example"] (fresh 3 false true) with
    | (Ok _, s1) => @run_checks nat net1 utf8_console ["nodns.example"] s1
    | (Raise e, s1) => (Raise e, s1)
    end.
Proof.
  apply (@quiet_runs_compose nat net1 utf8_console ["good.example"] ["nodns.example"]
           (fresh 3 false true)).
  reflexivity.
Defined.

Lemma clean_run_summary_witness :
  exists (s' : State nat) lines,
    stdout (proc s') =
      (header_lines ++ lines ++ [summary_line 2 (self s')])%list /\
    total_domains (self s') = 2.
Proof.
  destruct (@run_checks nat net1 utf8_console ["good.example"; "empty.example"]
              {| self := __init__ 3 false false; proc := start 0%nat |})
    as [r s'] eqn:R.
  assert (Hr : r = Ok 0) by (vm_compute in R; congruence). subst r.
  destruct (@clean_run_summary nat net1 utf8_console 3 false (start 0%nat)
              ["good.example"; "empty.example"] s' R)
    as (lines & Hout & Ht & _).
  exists s', lines. split; [exact Hout | exact Ht].
Defined.

Lemma check_domain_resolver_error_propagates_witness :
  exists s' : State nat,
    @check_domain nat net1 utf8_console "bad..example" (fresh 3 false false)
      = (Raise idna_error, s') /\
    failed_domains (self s') = 0 /\
    stdout (proc s') = [].
Proof.
  destruct (@check_domain_resolver_error_propagates nat net1 utf8_console "bad..example"
              (fresh 3 false false) idna_error 1%nat eq_refl eq_refl)
    as (s' & E & _ & Hf & _ & Hout & _).
  exists s'. split; [exact E|]. split; [exact Hf | exact Hout].
Defined.

(** ** Concrete runs for the amended claims *)

(** Two failed resolutions that are not counted as the claim says: a
    resolver error that is not [socket.gaierror] (the [UnicodeError] of a
    name with an empty label) leaves [dns_failures] and [failed_domains] at 0
    and ends the loop; and on a console that cannot encode the mark of the
    DNS failure line, a [socket.gaierror] is counted but the [print] raises
    and ends the loop before the next domain is resolved. *)
Lemma dns_failure_counterexample :
  (fst (@gethostbyname_ex nat net1 "bad..example" 0%nat) = inl idna_error /\
   let (r, s') :=
     @check_all nat net1 utf8_console ["bad..example"; "good.example"]
       (fresh 3 false false) in
   r = Raise idna_error /\
   dns_failures (self s') = 0 /\
   failed_domains (self s') = 0 /\
   net_log (proc s') = [EvResolve "bad..example" (inl idna_error)]) /\
  (let (r, s') :=
     @check_all nat net1 cp1252_console ["nodns.example"; "good.example"]
       (fresh 3 false false) in
   r = Raise unicode_encode_error /\
   dns_failures (self s') = 1 /\
   net_log (proc s')
     = [EvResolve "nodns.example"
          (inl (gaierror "[Errno -2] Name or service not known"))]).
Proof. vm_compute. repeat split. Qed.

Lemma check_domain_gaierror_witness :
  exists s' : State nat,
    @check_domain nat net1 utf8_console "nodns.example" (fresh 3 false false)
      = (Ok false, s') /\
    dns_failures (self s') = 1 /\
    failed_domains (self s') = 1.
Proof.
  destruct (@check_domain nat net1 utf8_console "nodns.example"
              (fresh 3 false false)) as [r s'] eqn:E.
  destruct (@check_domain_gaierror nat net1 utf8_console "nodns.example"
              (fresh 3 false false) "[Errno -2] Name or service not known"
              1%nat r s' eq_refl E)
    as (Hd & Hf & _ & _ & _ & Hret & _).
  rewrite (Hret (or_intror utf8_console_never_raises)).
  exists s'. split; [reflexivity|]. split; [exact Hd | exact Hf].
Defined.

(** On a console that cannot encode the mark of the result line, the call
    for a domain without addresses does not return [True]: it raises. *)
Lemma no_addresses_counterexample :
  let (r, s') :=
    @check_domain nat net1 cp1252_console "empty.example" (fresh 3 false false) in
  r = Raise unicode_encode_error /\
  r <> Ok true /\
  net_log (proc s') = [EvResolve "empty.example" (inr [])].
Proof. vm_compute. repeat split. discriminate. Qed.

Lemma check_domain_no_addresses_witness :
  exists s' : State nat,
    @check_domain nat net1 utf8_console "empty.example" (fresh 3 false false)
      = (Ok true, s') /\
    failed_domains (self s') = 0.
Proof.
  destruct (@check_domain nat net1 utf8_console "empty.example"
              (fresh 3 false false)) as [r s'] eqn:E.
  destruct (@check_domain_no_addresses nat net1 utf8_console "empty.example"
              (fresh 3 false false) 1%nat r s' eq_refl E)
    as (_ & _ & _ & Hf & _ & Hret).
  rewrite (Hret (or_intror utf8_console_never_raises)).
  exists s'. split; [reflexivity | exact Hf].
Defined.



(** Verbose mode, port 80 refused, standard output gone: the line
    reporting the failed probe cannot be printed, and port 443 of the address
    is never attempted. *)
Lemma probe_failure_aborts_counterexample :
  let (r, s') :=
    @check_domain nat net_refused_80 broken_console "good.example"
      (fresh 3 true false) in
  r = Raise (OtherException "[Errno 32] Broken pipe") /\
  net_log (proc s')
    = [EvResolve "good.example" (inr ["10.0.0.1"]);
       EvConnect "10.0.0.1" 80 3
         (Some (OtherException "[Errno 111] Connection refused"))].
Proof. vm_compute. repeat split. Qed.

Lemma check_domain_probes_each_pair_once_witness :
  exists attempts : list Attempt,
    [("10.0.0.1", 80); ("10.0.0.1", 443); ("10.0.0.2", 80); ("10.0.0.2", 443)]
    = (map fst attempts ++ [])%list.
Proof.
  destruct (@check_domain_probes_each_pair_once nat net1 utf8_console
              "two.example" (fresh 3 false false) ["10.0.0.1"; "10.0.0.2"]
              1%nat _ _ eq_refl (surjective_pairing _))
    as (attempts & rest & _ & Hpre & _ & _ & Hfull).
  rewrite (Hfull (or_introl eq_refl) net1_probes_never_interrupted) in Hpre.
  exists attempts. exact Hpre.
Defined.



(** In quiet mode a domain that fails to resolve has a failure and gets no
    line; with every default domain failing to resolve, [main] prints nothing
    at all and returns 2. *)
Lemma quiet_dns_failure_counterexample :
  (let (r, s') :=
     @check_domain nat net1 utf8_console "nodns.example" (fresh 3 false true) in
   r = Ok false /\
   failed_domains (self s') = 1 /\
   dns_failures (self s') = 1 /\
   stdout (proc s') = []) /\
  (let (code, p) :=
     @main nat net1 utf8_console (mkArgs None 3 false true) (start 0%nat) in
   code = 2 /\ stdout p = [] /\ stderr p = []).
Proof. vm_compute. repeat split. Qed.

Lemma quiet_mode_output_witness :
  exists (s' : State nat) (probes : list Probe),
    @check_domain nat net1 utf8_console "two.example" (fresh 3 false true)
      = (Ok false, s') /\
    stdout (proc s') = [result_line true "two.example" (port_results_of probes)].
Proof.
  destruct (@quiet_mode_output nat net1 utf8_console (fresh 3 false true)
              "two.example" [] eq_refl eq_refl) as [H _].
  destruct (@check_domain nat net1 utf8_console "two.example"
              (fresh 3 false true)) as [r s'] eqn:E.
  assert (R : r = Ok false) by (vm_compute in E; congruence).
  subst r. cbn [fst gethostbyname_ex net1 clock_socket] in H.
  change (dns1 0 "two.example") with (@inr exn _ ["10.0.0.1"; "10.0.0.2"]) in H.
  destruct H as (probes & _ & Hout).
  exists s', probes. split; [reflexivity | exact Hout].
Defined.

Lemma net_handled_resolver (domains : list string) :
  forall domain (w : nat) e,
    In domain domains ->
    fst (@gethostbyname_ex nat net_handled domain w) = inl e ->
    is_gaierror e = true.
Proof.
  intros domain w e _. simpl. unfold dns_handled.
  destruct (String.eqb domain "good.example"); [discriminate|].
  destruct (String.eqb domain "two.example"); [discriminate|].
  intros H; inversion H; reflexivity.
Defined.

Lemma net_handled_probes : @probes_never_interrupted nat net_handled.
Proof.
  intros ip port tmo w e. simpl. unfold tcp1.
  destruct (String.eqb ip "10.0.0.2" && (port =? 443))%bool;
    intros H; inversion H; reflexivity.
Defined.

Lemma main_returns_on_handled_failures_witness :
  exists s' : State nat,
    @main nat net_handled utf8_console (mkArgs (Some ["two.example"]) 5 true false)
      (start 0%nat)
    = (spec_exit_code (total_domains (self s')) (failed_domains (self s'))
         (dns_failures (self s')),
       proc s') /\
    stderr (proc s') = [].
Proof.
  destruct (@main_returns_on_handled_failures nat net_handled utf8_console
              (mkArgs (Some ["two.example"]) 5 true false) (start 0%nat)
              (net_handled_resolver _) net_handled_probes
              utf8_console_never_raises)
    as (s' & _ & Hm & He).
  - simpl. lia.
  - reflexivity.
  - exists s'. split; [exact Hm | exact He].
Defined.
